(** * Mixture ingestion pipeline (HeeJoon/src/data/mixture_ingest.py)

    A shallow embedding of the collector, the record normaliser and the
    batched upsert of the drug-mixture ingestion script, together with the
    properties its specification states about them.

    Python values are modelled as follows.
    - [int] is [Z]; [len] and list indices are [Z] too.
    - [float] is an IEEE binary64 value kept as sign, integer significand and
      binary exponent; the division [int / int] is the correctly rounded
      (nearest, ties to even) quotient, as CPython computes it.
    - [str] is a list of Unicode code points.
    - [dict] is an association list in insertion order whose lookup takes the
      first binding of a key.
    - exceptions are an error sum, and the effects of the script (HTTP
      requests, prints, sleeps, store calls, file writes) are entries of a
      chronological event trace threaded through a small state monad. *)

From Stdlib Require Import String Ascii.
From Stdlib Require Import ZArith NArith List Bool Lia.
Import ListNotations.

Local Open Scope Z_scope.

#[local] Set Warnings "-register-all".

(** ** Exceptions *)

(** The messages of the ValueErrors the script can meet. *)
Inductive message : Type :=
| CannotConvertNaN                 (* math.ceil on a NaN *)
| SetBaseUrl                       (* MIXTURE_API_BASE_URL is not configured *)
| SetServiceKey.                   (* MIXTURE_API_SERVICE_KEY is not configured *)

Inductive exn : Type :=
| TypeError
| AttributeError
| KeyError
| ZeroDivisionError
| OverflowError
| ValueError (msg : message)
| RequestError (code : Z)          (* what requests.get, raise_for_status or json() raised *)
| StoreError (code : Z)            (* what the Supabase client raised *)
| OSError (code : Z).

Inductive except (A : Type) : Type :=
| Ok (a : A)
| Raise (e : exn).
Arguments Ok {A} a.
Arguments Raise {A} e.

Definition ebind {A B} (x : except A) (k : A -> except B) : except B :=
  match x with
  | Ok a => k a
  | Raise e => Raise e
  end.

Declare Scope except_scope.
Delimit Scope except_scope with except.
Notation "x <- c ;; k" := (ebind c (fun x => k))
  (at level 61, c at next level, right associativity) : except_scope.

(** ** Floats and true division *)

(** [FFinite neg m e] is the number (-1)^neg * m * 2^e, with [0 <= m]. *)
Inductive pyfloat : Type :=
| FFinite (neg : bool) (m : Z) (e : Z)
| FInf (neg : bool)
| FNaN.

(** Nearest integer to the rational n/d (0 <= n, 0 < d), ties to even. *)
Definition round_half_even (n d : Z) : Z :=
  let q := n / d in
  let r := n mod d in
  if 2 * r <? d then q
  else if d <? 2 * r then q + 1
  else if Z.even q then q else q + 1.

(** Whether 2^l <= n/d, for 0 < n and 0 < d. *)
Definition ratio_ge_pow2 (n d l : Z) : bool :=
  if 0 <=? l then d * 2 ^ l <=? n else d <=? n * 2 ^ (- l).

(** floor (log2 (n/d)), for 0 < n and 0 < d. *)
Definition ratio_log2 (n d : Z) : Z :=
  let l := Z.log2 n - Z.log2 d in
  if ratio_ge_pow2 n d l then l else l - 1.

(** The binary64 nearest to the positive rational n/d, as significand and
    exponent: 53 significant bits in the normal range, the fixed exponent
    -1074 in the subnormal range.  The significand may come out as 2^53. *)
Definition binary64_of_ratio (n d : Z) : Z * Z :=
  let e := Z.max (ratio_log2 n d - 52) (-1074) in
  let m := if 0 <=? e then round_half_even n (d * 2 ^ e)
           else round_half_even (n * 2 ^ (- e)) d in
  (m, e).

(** Whether m * 2^e exceeds the largest finite binary64. *)
Definition binary64_overflows (m e : Z) : bool :=
  (0 <=? e) && (2 ^ 1024 <=? m * 2 ^ e).

(** [a / b] on two Python ints. *)
Definition int_true_div (a b : Z) : except pyfloat :=
  if b =? 0 then Raise ZeroDivisionError
  else if a =? 0 then Ok (FFinite (b <? 0) 0 0)
  else
    let '(m, e) := binary64_of_ratio (Z.abs a) (Z.abs b) in
    if binary64_overflows m e then Raise OverflowError
    else Ok (FFinite (xorb (a <? 0) (b <? 0)) m e).

(** [float(b)] on a Python int. *)
Definition float_of_int (b : Z) : except pyfloat :=
  if b =? 0 then Ok (FFinite false 0 0)
  else
    let '(m, e) := binary64_of_ratio (Z.abs b) 1 in
    if binary64_overflows m e then Raise OverflowError
    else Ok (FFinite (b <? 0) m e).

(** IEEE division of two floats (Python raises on a zero divisor). *)
Definition float_div (x y : pyfloat) : except pyfloat :=
  match x, y with
  | FNaN, FFinite _ 0 _ => Raise ZeroDivisionError
  | FInf _, FFinite _ 0 _ => Raise ZeroDivisionError
  | FFinite _ _ _, FFinite _ 0 _ => Raise ZeroDivisionError
  | FNaN, _ => Ok FNaN
  | _, FNaN => Ok FNaN
  | FInf _, FInf _ => Ok FNaN
  | FInf s, FFinite t _ _ => Ok (FInf (xorb s t))
  | FFinite s _ _, FInf t => Ok (FFinite (xorb s t) 0 0)
  | FFinite s 0 _, FFinite t _ _ => Ok (FFinite (xorb s t) 0 0)
  | FFinite s m1 e1, FFinite t m2 e2 =>
      let k := e1 - e2 in
      let '(m, e) :=
        if 0 <=? k then binary64_of_ratio (m1 * 2 ^ k) m2
        else binary64_of_ratio m1 (m2 * 2 ^ (- k)) in
      if binary64_overflows m e then Ok (FInf (xorb s t))
      else Ok (FFinite (xorb s t) m e)
  end.

(** [math.ceil] on a float. *)
Definition math_ceil (x : pyfloat) : except Z :=
  match x with
  | FNaN => Raise (ValueError CannotConvertNaN)
  | FInf _ => Raise OverflowError
  | FFinite neg m e =>
      let v := if neg then - m else m in
      if 0 <=? e then Ok (v * 2 ^ e)
      else Ok (- ((- v) / 2 ^ (- e)))
  end.

(** The exact ceiling of a/b for 0 < b, used to state results. *)
Definition ceil_div (a b : Z) : Z := - ((- a) / b).

(** ** Strings *)

(** A Python [str]: its Unicode code points. *)
Definition pystr : Type := list N.

(** An ASCII literal as a [pystr]. *)
Definition str (s : string) : pystr := map N_of_ascii (list_ascii_of_string s).

Fixpoint str_eqb (s t : pystr) : bool :=
  match s, t with
  | [], [] => true
  | c :: s', d :: t' => (c =? d)%N && str_eqb s' t'
  | _, _ => false
  end.

Definition len {A} (l : list A) : Z := Z.of_nat (List.length l).

(** The characters [str.strip()] removes: CPython's Py_UNICODE_ISSPACE. *)
Definition is_space (c : N) : bool :=
  (((9 <=? c) && (c <=? 13)) || ((28 <=? c) && (c <=? 32))
   || (c =? 133) || (c =? 160) || (c =? 5760)
   || ((8192 <=? c) && (c <=? 8202))
   || (c =? 8232) || (c =? 8233) || (c =? 8239) || (c =? 8287)
   || (c =? 12288))%N.

Fixpoint lstrip (s : pystr) : pystr :=
  match s with
  | c :: s' => if is_space c then lstrip s' else s
  | [] => []
  end.

Definition rstrip (s : pystr) : pystr := rev (lstrip (rev s)).

(** [s.strip()] *)
Definition strip (s : pystr) : pystr := rstrip (lstrip s).

Fixpoint starts_with (sub s : pystr) : bool :=
  match sub, s with
  | [], _ => true
  | c :: sub', d :: s' => (c =? d)%N && starts_with sub' s'
  | _ :: _, [] => false
  end.

(** [sub in s] on two strs. *)
Fixpoint is_substring (sub s : pystr) : bool :=
  starts_with sub s ||
  match s with
  | [] => false
  | _ :: s' => is_substring sub s'
  end.

(** [str.lower()] and [str.upper()].  The script calls them on the column
    names only, which are ASCII; on ASCII they change the letters A-Z and
    a-z and nothing else. *)
Definition lower_char (c : N) : N :=
  if ((65 <=? c) && (c <=? 90))%N then (c + 32)%N else c.
Definition upper_char (c : N) : N :=
  if ((97 <=? c) && (c <=? 122))%N then (c - 32)%N else c.
Definition lower (s : pystr) : pystr := map lower_char s.
Definition upper (s : pystr) : pystr := map upper_char s.

(** Decimal digits of an int, for [str(int)].  (CPython refuses ints of
    more than 4300 digits, here and when it parses JSON, so [json()] never
    returns one.) *)
Fixpoint uint_chars (u : Decimal.uint) : pystr :=
  match u with
  | Decimal.Nil => []
  | Decimal.D0 u' => 48%N :: uint_chars u'
  | Decimal.D1 u' => 49%N :: uint_chars u'
  | Decimal.D2 u' => 50%N :: uint_chars u'
  | Decimal.D3 u' => 51%N :: uint_chars u'
  | Decimal.D4 u' => 52%N :: uint_chars u'
  | Decimal.D5 u' => 53%N :: uint_chars u'
  | Decimal.D6 u' => 54%N :: uint_chars u'
  | Decimal.D7 u' => 55%N :: uint_chars u'
  | Decimal.D8 u' => 56%N :: uint_chars u'
  | Decimal.D9 u' => 57%N :: uint_chars u'
  end.

Definition str_of_int (z : Z) : pystr :=
  match Z.to_int z with
  | Decimal.Pos u => uint_chars u
  | Decimal.Neg u => 45%N :: uint_chars u
  end.

(** [s[i:j]] for 0 <= i <= j. *)
Definition substr (s : pystr) (i j : nat) : pystr := firstn (j - i) (skipn i s).

(** ** Values *)

(** What [response.json()] can return. *)
Inductive value : Type :=
| VNone
| VBool (b : bool)
| VInt (z : Z)
| VFloat (f : pyfloat)
| VStr (s : pystr)
| VList (l : list value)
| VDict (d : list (pystr * value)).

Definition dict : Type := list (pystr * value).

Fixpoint dict_get (d : dict) (k : pystr) : option value :=
  match d with
  | [] => None
  | (k', v) :: d' => if str_eqb k' k then Some v else dict_get d' k
  end.

Definition dict_has (d : dict) (k : pystr) : bool :=
  match dict_get d k with Some _ => true | None => false end.

(** [d[k] = v]: overwrite in place, or append a new key. *)
Fixpoint dict_set (d : dict) (k : pystr) (v : value) : dict :=
  match d with
  | [] => [(k, v)]
  | (k', v') :: d' =>
      if str_eqb k' k then (k', v) :: d' else (k', v') :: dict_set d' k v
  end.

Definition dict_keys (d : dict) : list pystr := map fst d.

Definition Z_of_bool (b : bool) : Z := if b then 1 else 0.

Definition float_is_zero (f : pyfloat) : bool :=
  match f with
  | FFinite _ m _ => m =? 0
  | _ => false
  end.

(** [bool(v)] *)
Definition truthy (v : value) : bool :=
  match v with
  | VNone => false
  | VBool b => b
  | VInt z => negb (z =? 0)
  | VFloat f => negb (float_is_zero f)
  | VStr s => match s with [] => false | _ => true end
  | VList l => match l with [] => false | _ => true end
  | VDict d => match d with [] => false | _ => true end
  end.

(** [f == z] for a float and an int, compared exactly. *)
Definition float_eq_int (f : pyfloat) (z : Z) : bool :=
  match f with
  | FFinite neg m e =>
      let v := if neg then - m else m in
      if 0 <=? e then v * 2 ^ e =? z else v =? z * 2 ^ (- e)
  | _ => false
  end.

(** [v == z] for an int [z] ([bool] is a subtype of [int]). *)
Definition eq_int (v : value) (z : Z) : bool :=
  match v with
  | VBool b => Z_of_bool b =? z
  | VInt x => x =? z
  | VFloat f => float_eq_int f z
  | _ => false
  end.

(** The literals the script compares values with. *)
Inductive literal : Type :=
| LBool (b : bool)
| LInt (z : Z)
| LStr (s : pystr).

(** [v == c] for a literal [c]. *)
Definition eq_literal (v : value) (c : literal) : bool :=
  match c with
  | LBool b => eq_int v (Z_of_bool b)
  | LInt z => eq_int v z
  | LStr t => match v with VStr s => str_eqb s t | _ => false end
  end.

(** [v in (c1, ..., cn)] *)
Definition in_literals (v : value) (cs : list literal) : bool :=
  existsb (eq_literal v) cs.

(** [k in raw] for a str [k]. *)
Definition py_contains (raw : value) (k : pystr) : except bool :=
  match raw with
  | VDict d => Ok (dict_has d k)
  | VStr s => Ok (is_substring k s)
  | VList l => Ok (existsb (fun x => eq_literal x (LStr k)) l)
  | _ => Raise TypeError
  end.

(** [raw[k]] for a str [k]. *)
Definition py_getitem (raw : value) (k : pystr) : except value :=
  match raw with
  | VDict d => match dict_get d k with Some v => Ok v | None => Raise KeyError end
  | _ => Raise TypeError
  end.

(** [obj.get(k, default)] *)
Definition py_get (obj : value) (k : pystr) (default : value) : except value :=
  match obj with
  | VDict d => Ok (match dict_get d k with Some v => v | None => default end)
  | _ => Raise AttributeError
  end.

(** The elements a [for] loop over [v] visits. *)
Definition py_iter (v : value) : except (list value) :=
  match v with
  | VList l => Ok l
  | VStr s => Ok (map (fun c => VStr [c]) s)
  | VDict d => Ok (map VStr (dict_keys d))
  | _ => Raise TypeError
  end.

(** [total_count / num_of_rows] *)
Definition py_truediv (v : value) (b : Z) : except pyfloat :=
  match v with
  | VInt a => int_true_div a b
  | VBool x => int_true_div (Z_of_bool x) b
  | VFloat f => (fb <- float_of_int b ;; float_div f fb)%except
  | _ => Raise TypeError
  end.

(** [range(lo, hi)] *)
Definition py_range (lo hi : Z) : list Z :=
  map (fun i => lo + Z.of_nat i) (seq 0 (Z.to_nat (hi - lo))).

(** [l[start:stop]] with Python's clamping of out-of-range and negative
    indices. *)
Definition slice_index {A} (l : list A) (i : Z) : Z :=
  if i <? 0 then Z.max 0 (len l + i) else Z.min i (len l).

Definition py_slice {A} (l : list A) (start stop : Z) : list A :=
  let s := slice_index l start in
  let e := slice_index l stop in
  firstn (Z.to_nat (e - s)) (skipn (Z.to_nat s) l).

(** ** The record normaliser *)

Definition MIXTURE_COLUMNS : list pystr :=
  [ str "TYPE_NAME";
    str "MIX_TYPE";
    str "INGR_CODE";
    str "INGR_ENG_NAME";
    str "INGR_KOR_NAME";
    str "MIX";
    str "ORI";
    str "CLASS";
    str "MIXTURE_MIX_TYPE";
    str "MIXTURE_INGR_CODE";
    str "MIXTURE_INGR_ENG_NAME";
    str "MIXTURE_INGR_KOR_NAME";
    str "MIXTURE_MIX";
    str "MIXTURE_ORI";
    str "MIXTURE_CLASS";
    str "NOTIFICATION_DATE";
    str "PROHBT_CONTENT";
    str "REMARK";
    str "DEL_YN" ].

(** The Korean token for "normal" (U+C815 U+C0C1). *)
Definition NORMAL : pystr := [51221%N; 49345%N].

(** The tuple [(False, "f", "false", "False", "N", "n", "0", 0)]. *)
Definition DEL_FALSY : list literal :=
  [ LBool false; LStr (str "f"); LStr (str "false"); LStr (str "False");
    LStr (str "N"); LStr (str "n"); LStr (str "0"); LInt 0 ].

(** Two tables of the interpreter stay abstract: which code points beyond
    ASCII count as digits for [str.isdigit] (the Unicode database of the
    running Python), and the text [str()] gives a float, a list or a dict. *)
Class interpreter : Type := {
  unicode_digit : N -> bool;
  py_repr : value -> pystr
}.

Section Interpreter.

Context {I : interpreter}.

Definition is_digit (c : N) : bool :=
  if (c <? 128)%N then ((48 <=? c) && (c <=? 57))%N else unicode_digit c.

(** [s.isdigit()] *)
Definition isdigit (s : pystr) : bool :=
  match s with
  | [] => false
  | _ => forallb is_digit s
  end.

(** [str(v)] *)
Definition py_str (v : value) : pystr :=
  match v with
  | VNone => str "None"
  | VBool true => str "True"
  | VBool false => str "False"
  | VInt z => str_of_int z
  | VStr s => s
  | _ => py_repr v
  end.

Definition _parse_date_yyyymmdd (value : value) : option pystr :=
  if negb (truthy value) then None
  else
    let s := strip (py_str value) in
    if (len s =? 8) && isdigit s
    then Some (substr s 0 4 ++ str "-" ++ substr s 4 6 ++ str "-" ++ substr s 6 8)
    else Some s.

(** The [if col in raw / elif col.lower() in raw / elif col.upper() in raw]
    chain, starting from [val = None]. *)
Definition lookup_column (raw : value) (col : pystr) : except value :=
  (b1 <- py_contains raw col ;;
   if b1 then py_getitem raw col
   else
     b2 <- py_contains raw (lower col) ;;
     if b2 then py_getitem raw (lower col)
     else
       b3 <- py_contains raw (upper col) ;;
       if b3 then py_getitem raw (upper col)
       else Ok VNone)%except.

(** The value stored under [col] given the looked-up [val]. *)
Definition clean_value (col : pystr) (val : value) : value :=
  if str_eqb col (str "NOTIFICATION_DATE") then
    match _parse_date_yyyymmdd val with
    | Some s => VStr s
    | None => VNone
    end
  else if str_eqb col (str "DEL_YN") then
    if eq_literal val (LStr NORMAL) || in_literals val DEL_FALSY
    then VBool false
    else VBool true
  else
    match val with
    | VNone => VStr []
    | _ => VStr (strip (py_str val))
    end.

(** The [for col in MIXTURE_COLUMNS] loop over the dict [out]. *)
Fixpoint clean_columns (raw : value) (cols : list pystr) (out : dict)
  : except dict :=
  match cols with
  | [] => Ok out
  | col :: cols' =>
      (val <- lookup_column raw col ;;
       clean_columns raw cols' (dict_set out col (clean_value col val)))%except
  end.

Definition clean_record (raw : value) : except dict :=
  clean_columns raw MIXTURE_COLUMNS [].

End Interpreter.

(** ** Effects *)

(** The query of one [requests.get]; the fixed [type=json] parameter and
    the 30 second timeout are not recorded. *)
Record request : Type := {
  req_url : pystr;
  serviceKey : option pystr;
  pageNo : Z;
  numOfRows : Z
}.

(** The lines the script prints, by print statement. *)
Inductive line : Type :=
| MsgCollectStart (label : pystr) (total_count : value) (total_pages : Z)
| MsgPage (page total_pages collected : Z)
| MsgCollectDone (label : pystr) (collected : Z)
| MsgNoRows
| MsgBatch (number batches size : Z)
| MsgUpsertDone (total : Z)
| MsgSaved (path : pystr).

Inductive fs_op : Type :=
| Makedirs (dir : pystr)
| WriteJson (path : pystr) (items : list value).

Inductive event : Type :=
| EvRequest (r : request)
| EvSleep                         (* time.sleep(0.3) *)
| EvPrint (l : line)
| EvClient                        (* get_supabase_client() *)
| EvUpsert (table : pystr) (batch : list dict)
| EvFs (op : fs_op).

Definition trace : Type := list event.

(** What the script takes from outside: the three values imported from
    src.config, and the outcome of each call that leaves the process, which
    may depend on everything done so far. *)
Record environment : Type := {
  MIXTURE_API_BASE_URL : option pystr;
  MIXTURE_API_SERVICE_KEY : option pystr;
  MIXTURE_API_NUM_OF_ROWS : Z;
  http_get : trace -> request -> except value;
  supabase_client : trace -> except unit;
  store_upsert : trace -> pystr -> list dict -> except unit;
  fs_do : trace -> fs_op -> except unit;
  os_path_dirname : pystr -> pystr
}.

(** Computations that extend the trace and may raise. *)
Definition M (A : Type) : Type := trace -> except A * trace.

Definition ret {A} (a : A) : M A := fun tr => (Ok a, tr).

Definition bind {A B} (c : M A) (k : A -> M B) : M B :=
  fun tr =>
    match c tr with
    | (Ok a, tr') => k a tr'
    | (Raise e, tr') => (Raise e, tr')
    end.

Definition raise {A} (e : exn) : M A := fun tr => (Raise e, tr).

Definition lift {A} (x : except A) : M A := fun tr => (x, tr).

(** An effect that cannot fail. *)
Definition emit (ev : event) : M unit := fun tr => (Ok tt, tr ++ [ev]).

(** An effect whose outcome the environment decides from the history. *)
Definition call {A} (ev : event) (outcome : trace -> except A) : M A :=
  fun tr => (outcome tr, tr ++ [ev]).

Declare Scope M_scope.
Delimit Scope M_scope with M.
Notation "x <- c ;; k" := (bind c (fun x => k))
  (at level 61, c at next level, right associativity) : M_scope.
Notation "c ;; k" := (bind c (fun _ => k))
  (at level 61, right associativity) : M_scope.

(** [a or b] on two optional strs. *)
Definition py_or (a b : option pystr) : option pystr :=
  match a with
  | Some (_ :: _) => a
  | _ => b
  end.

(** Unwrapping of one element of a page's [items]:
    [isinstance(item_wrapper, dict) and "item" in item_wrapper]. *)
Definition unwrap_item (item_wrapper : value) : value :=
  match item_wrapper with
  | VDict d =>
      match dict_get d (str "item") with
      | Some x => x
      | None => item_wrapper
      end
  | _ => item_wrapper
  end.

(** The inner [for item_wrapper in items] loop on [all_items]. *)
Definition append_items (all_items items : list value) : list value :=
  fold_left (fun acc item_wrapper => acc ++ [unwrap_item item_wrapper])
            items all_items.

(** The upsert calls of a trace, in order. *)
Fixpoint upserts_of (tr : trace) : list (pystr * list dict) :=
  match tr with
  | [] => []
  | EvUpsert t b :: tr' => (t, b) :: upserts_of tr'
  | _ :: tr' => upserts_of tr'
  end.

(** The label "혼합성분" (U+D63C U+D569 U+C131 U+BD84). *)
Definition MIXTURE_LABEL : pystr := [54844%N; 54633%N; 49457%N; 48516%N].

Section Pipeline.

Variable env : environment.

Local Open Scope M_scope.

Definition fetch_page (base_url : pystr) (page_no num_of_rows : Z)
           (service_key : option pystr) : M value :=
  let service_key := py_or service_key (MIXTURE_API_SERVICE_KEY env) in
  let params := {| req_url := base_url; serviceKey := service_key;
                   pageNo := page_no; numOfRows := num_of_rows |} in
  call (EvRequest params) (fun tr => http_get env tr params).

(** [math.ceil(total_count / num_of_rows) if num_of_rows > 0 else 1] *)
Definition total_pages_of (total_count : value) (num_of_rows : Z) : except Z :=
  if 0 <? num_of_rows
  then (q <- py_truediv total_count num_of_rows ;; math_ceil q)%except
  else Ok 1.

(** The [for page in range(1, total_pages + 1)] loop. *)
Fixpoint collect_pages (base_url : pystr) (num_of_rows : Z)
         (service_key : option pystr) (total_pages : Z)
         (pages : list Z) (all_items : list value) : M (list value) :=
  match pages with
  | [] => ret all_items
  | page :: pages' =>
      data <- fetch_page base_url page num_of_rows service_key ;;
      body <- lift (py_get data (str "body") (VDict [])) ;;
      items <- lift (py_get body (str "items") (VList [])) ;;
      elems <- lift (py_iter items) ;;
      let all_items := append_items all_items elems in
      (if (page mod 10 =? 0) || (page =? total_pages)
       then emit (EvPrint (MsgPage page total_pages (len all_items)))
       else ret tt) ;;
      emit EvSleep ;;
      collect_pages base_url num_of_rows service_key total_pages pages' all_items
  end.

Definition fetch_all_from_api (base_url : pystr) (num_of_rows : Z)
           (service_key : option pystr) (label : pystr) : M (list value) :=
  let service_key := py_or service_key (MIXTURE_API_SERVICE_KEY env) in
  first_page <- fetch_page base_url 1 1 service_key ;;
  body <- lift (py_get first_page (str "body") (VDict [])) ;;
  total_count <- lift (py_get body (str "totalCount") (VInt 0)) ;;
  total_pages <- lift (total_pages_of total_count num_of_rows) ;;
  emit (EvPrint (MsgCollectStart label total_count total_pages)) ;;
  all_items <- collect_pages base_url num_of_rows service_key total_pages
                             (py_range 1 (total_pages + 1)) [] ;;
  emit (EvPrint (MsgCollectDone label (len all_items))) ;;
  ret all_items.

(** The [for i in range(batches)] loop. *)
Fixpoint upsert_batches (rows : list dict) (table_name : pystr)
         (batch_size batches : Z) (indices : list Z) : M unit :=
  match indices with
  | [] => ret tt
  | i :: indices' =>
      let start := i * batch_size in
      let end_ := start + batch_size in
      let batch := py_slice rows start end_ in
      emit (EvPrint (MsgBatch (i + 1) batches (len batch))) ;;
      call (EvUpsert table_name batch)
           (fun tr => store_upsert env tr table_name batch) ;;
      upsert_batches rows table_name batch_size batches indices'
  end.

Definition upsert_to_supabase (rows : list dict) (table_name : pystr)
           (batch_size : Z) : M unit :=
  call EvClient (supabase_client env) ;;
  let total := len rows in
  if total =? 0 then emit (EvPrint MsgNoRows)
  else
    batches <- lift (q <- int_true_div total batch_size ;; math_ceil q)%except ;;
    upsert_batches rows table_name batch_size batches (py_range 0 batches) ;;
    emit (EvPrint (MsgUpsertDone total)).

Definition fetch_mixture_data (save_path : option pystr) : M (list value) :=
  match MIXTURE_API_BASE_URL env with
  | None | Some [] => raise (ValueError SetBaseUrl)
  | Some base_url =>
      match MIXTURE_API_SERVICE_KEY env with
      | None | Some [] => raise (ValueError SetServiceKey)
      | Some _ =>
          items <- fetch_all_from_api base_url (MIXTURE_API_NUM_OF_ROWS env)
                                      None MIXTURE_LABEL ;;
          match save_path with
          | Some (c :: p) =>
              let save_path := c :: p in
              let save_dir := os_path_dirname env save_path in
              match save_dir with
              | [] => ret tt
              | _ => call (EvFs (Makedirs save_dir))
                          (fun tr => fs_do env tr (Makedirs save_dir))
              end ;;
              call (EvFs (WriteJson save_path items))
                   (fun tr => fs_do env tr (WriteJson save_path items)) ;;
              emit (EvPrint (MsgSaved save_path))
          | _ => ret tt
          end ;;
          ret items
      end
  end.

End Pipeline.

(** ** Sample instances

    A concrete interpreter and a concrete environment on which the
    statements below are exercised. *)

(** An interpreter that knows the ASCII digits only and prints every float
    and container as "?". *)
Definition ascii_interpreter : interpreter := {|
  unicode_digit := fun _ => false;
  py_repr := fun _ => str "?"
|}.

(** One page of two items, the first in an envelope. *)
Definition sample_page : value :=
  VDict [ (str "body",
           VDict [ (str "totalCount", VInt 2);
                   (str "items",
                    VList [ VDict [ (str "item", VDict [ (str "mix", VStr (str "A")) ]) ];
                            VDict [ (str "MIX", VStr (str "B")) ] ]) ]) ].

(** A server that answers every request with [sample_page], a store that
    accepts every batch, and no configured base URL. *)
Definition sample_env : environment := {|
  MIXTURE_API_BASE_URL := None;
  MIXTURE_API_SERVICE_KEY := Some (str "key");
  MIXTURE_API_NUM_OF_ROWS := 2;
  http_get := fun _ _ => Ok sample_page;
  supabase_client := fun _ => Ok tt;
  store_upsert := fun _ _ _ => Ok tt;
  fs_do := fun _ _ => Ok tt;
  os_path_dirname := fun _ => []
|}.

(** The same three values under lower-case and under upper-case keys. *)
Definition lower_keyed : dict :=
  [ (str "mix", VStr (str " A ")); (str "del_yn", VStr NORMAL);
    (str "notification_date", VStr (str "20230115")) ].
Definition upper_keyed : dict :=
  [ (str "MIX", VStr (str " A ")); (str "DEL_YN", VStr NORMAL);
    (str "NOTIFICATION_DATE", VStr (str "20230115")) ].

(** An environment whose probe finds no records. *)
Definition empty_page : value :=
  VDict [ (str "body", VDict [ (str "totalCount", VInt 0); (str "items", VList []) ]) ].

Definition empty_env : environment := {|
  MIXTURE_API_BASE_URL := Some (str "http://api");
  MIXTURE_API_SERVICE_KEY := Some (str "key");
  MIXTURE_API_NUM_OF_ROWS := 500;
  http_get := fun _ _ => Ok empty_page;
  supabase_client := fun _ => Ok tt;
  store_upsert := fun _ _ _ => Ok tt;
  fs_do := fun _ _ => Ok tt;
  os_path_dirname := fun _ => []
|}.

(** A raw record that has a field named "item". *)
Definition record_with_item_field : value :=
  VDict [ (str "item", VStr (str "x")); (str "TYPE_NAME", VStr (str "a")) ].

Definition three_rows : list dict :=
  [ [ (str "MIX", VStr (str "A")) ];
    [ (str "MIX", VStr (str "B")) ];
    [ (str "MIX", VStr (str "C")) ] ].

(** A server holding five records in pages of two; the second page comes
    without envelopes. *)
Definition five_page (page_no : Z) : value :=
  let wrap x := VDict [ (str "item", x) ] in
  let items :=
    if page_no =? 1 then [ wrap (VStr (str "r1")); wrap (VStr (str "r2")) ]
    else if page_no =? 2 then [ VStr (str "r3"); VStr (str "r4") ]
    else if page_no =? 3 then [ wrap (VStr (str "r5")) ]
    else [] in
  VDict [ (str "body", VDict [ (str "totalCount", VInt 5); (str "items", VList items) ]) ].

Definition five_env : environment := {|
  MIXTURE_API_BASE_URL := Some (str "http://api");
  MIXTURE_API_SERVICE_KEY := Some (str "key");
  MIXTURE_API_NUM_OF_ROWS := 2;
  http_get := fun _ r => Ok (five_page (pageNo r));
  supabase_client := fun _ => Ok tt;
  store_upsert := fun _ _ _ => Ok tt;
  fs_do := fun _ _ => Ok tt;
  os_path_dirname := fun _ => []
|}.

(** ** Vocabulary of the specification *)

(** The value found for a column in a dict: the exact name, then the
    lower-case name, then the upper-case name, else null. *)
Definition resolved (d : dict) (col : pystr) : value :=
  match dict_get d col with
  | Some v => v
  | None =>
      match dict_get d (lower col) with
      | Some v => v
      | None =>
          match dict_get d (upper col) with
          | Some v => v
          | None => VNone
          end
      end
  end.

(** The type each column of a normalised record holds. *)
Definition column_type (col : pystr) (v : value) : Prop :=
  if str_eqb col (str "NOTIFICATION_DATE") then v = VNone \/ exists s, v = VStr s
  else if str_eqb col (str "DEL_YN") then exists b, v = VBool b
  else exists s, v = VStr s.

(** What a column holds when the raw record has no value for it. *)
Definition default_value (col : pystr) : value :=
  if str_eqb col (str "NOTIFICATION_DATE") then VNone
  else if str_eqb col (str "DEL_YN") then VBool true
  else VStr [].

(** The values the specification lists as mapping DEL_YN to false: the
    token for "normal", boolean false, the six strings, and numeric zero
    (an int, or a float zero of either sign, which Python finds in the
    tuple because [0.0 == 0]). *)
Definition del_falsy_value (v : value) : Prop :=
  v = VStr NORMAL \/ v = VBool false \/
  v = VStr (str "f") \/ v = VStr (str "false") \/ v = VStr (str "False") \/
  v = VStr (str "N") \/ v = VStr (str "n") \/ v = VStr (str "0") \/
  v = VInt 0 \/ exists neg e, v = VFloat (FFinite neg 0 e).

(** A probe response that reports no records: no body, a body without
    totalCount, or totalCount = 0. *)
Definition reports_no_records (first_page : value) : Prop :=
  exists d, first_page = VDict d /\
    (dict_get d (str "body") = None \/
     exists b, dict_get d (str "body") = Some (VDict b) /\
       (dict_get b (str "totalCount") = None \/
        dict_get b (str "totalCount") = Some (VInt 0))).

(** The body.items list of a page response. *)
Definition page_items (data : value) : except value :=
  (body <- py_get data (str "body") (VDict []) ;;
   py_get body (str "items") (VList []))%except.

(** The page count the probe response leads to. *)
Definition probe_pages (first_page : value) (num_of_rows : Z) : except Z :=
  (body <- py_get first_page (str "body") (VDict []) ;;
   total_count <- py_get body (str "totalCount") (VInt 0) ;;
   total_pages_of total_count num_of_rows)%except.

(** The request fetch_all_from_api sends for a page. *)
Definition page_request (env : environment) (base_url : pystr)
           (service_key : option pystr) (page_no num_of_rows : Z) : request :=
  {| req_url := base_url;
     serviceKey := py_or (py_or service_key (MIXTURE_API_SERVICE_KEY env))
                         (MIXTURE_API_SERVICE_KEY env);
     pageNo := page_no;
     numOfRows := num_of_rows |}.

(** ** Observations on traces *)

(** The network requests, the sleeps, the file-system calls and the client
    creations of a trace. *)
Fixpoint requests_of (tr : trace) : list request :=
  match tr with
  | [] => []
  | EvRequest r :: tr' => r :: requests_of tr'
  | _ :: tr' => requests_of tr'
  end.

Fixpoint sleeps_of (tr : trace) : nat :=
  match tr with
  | [] => 0
  | EvSleep :: tr' => S (sleeps_of tr')
  | _ :: tr' => sleeps_of tr'
  end.

Fixpoint fs_ops_of (tr : trace) : list fs_op :=
  match tr with
  | [] => []
  | EvFs op :: tr' => op :: fs_ops_of tr'
  | _ :: tr' => fs_ops_of tr'
  end.

Fixpoint clients_of (tr : trace) : nat :=
  match tr with
  | [] => 0
  | EvClient :: tr' => S (clients_of tr')
  | _ :: tr' => clients_of tr'
  end.

(** The elements the collector's inner loop visits on a page response. *)
Definition page_elems (data : value) : except (list value) :=
  (items <- page_items data ;; py_iter items)%except.

(** The consecutive slices of [batch_size] rows. *)
Definition batches_of {A} (rows : list A) (batch_size : Z) : list (list A) :=
  map (fun i => firstn (Z.to_nat batch_size) (skipn (i * Z.to_nat batch_size) rows))
      (seq 0 (Z.to_nat (ceil_div (len rows) batch_size))).

(** The record clean_record builds from a dict, column by column. *)
Definition normalised {I : interpreter} (d : dict) : dict :=
  map (fun c => (c, clean_value c (resolved d c))) MIXTURE_COLUMNS.

(** A computation that only appends events, all of them of kind [P]. *)
Definition adds_only {A} (P : event -> Prop) (c : M A) : Prop :=
  forall tr, exists new, snd (c tr) = tr ++ new /\ Forall P new.

(** The events of the collector, of the writer and of the snapshot. *)
Definition collector_event (ev : event) : Prop :=
  match ev with
  | EvRequest _ | EvSleep | EvPrint _ => True
  | _ => False
  end.

Definition writer_event (ev : event) : Prop :=
  match ev with
  | EvClient | EvUpsert _ _ | EvPrint _ => True
  | _ => False
  end.

Definition batch_event (ev : event) : Prop :=
  match ev with
  | EvUpsert _ _ | EvPrint _ => True
  | _ => False
  end.

Definition snapshot_event (ev : event) : Prop :=
  match ev with
  | EvRequest _ | EvSleep | EvPrint _ | EvFs _ => True
  | _ => False
  end.

(** ** The orchestrator *)

(** A normalised record in which an empty NOTIFICATION_DATE is replaced
    by null. *)
Definition empty_date_to_none (out : dict) : dict :=
  map (fun kv =>
         match kv with
         | (col, VStr []) =>
             if str_eqb col (str "NOTIFICATION_DATE") then (col, VNone) else kv
         | _ => kv
         end) out.

(** A str without whitespace at either end. *)
Definition head_ok (s : pystr) : Prop :=
  match s with
  | [] => True
  | c :: _ => is_space c = false
  end.

Definition trimmed (s : pystr) : Prop := head_ok s /\ head_ok (rev s).

(** The progress lines of ingest_mixture_to_supabase and
    ensure_table_exists, by print statement. *)
Inductive stage_line : Type :=
| MsgRule                          (* print("=" * 60) *)
| MsgTitle
| MsgBlank                         (* print() *)
| MsgCleaning
| MsgCleaned (rows : Z)
| MsgCheckingTable
| MsgTableAssumed (table_name : pystr)
| MsgUploading
| MsgFinished.

(** The orchestrator's journal: its own lines, and between them the events
    of the stages it calls.  The environment is asked with the events only. *)
Inductive entry : Type :=
| Stage (l : stage_line)
| Below (ev : event).

Definition journal : Type := list entry.

Fixpoint events_of (j : journal) : trace :=
  match j with
  | [] => []
  | Below ev :: j' => ev :: events_of j'
  | Stage _ :: j' => events_of j'
  end.

Definition O (A : Type) : Type := journal -> except A * journal.

Definition oret {A} (a : A) : O A := fun j => (Ok a, j).

Definition obind {A B} (c : O A) (k : A -> O B) : O B :=
  fun j =>
    match c j with
    | (Ok a, j') => k a j'
    | (Raise e, j') => (Raise e, j')
    end.

Definition olift {A} (x : except A) : O A := fun j => (x, j).

Definition say (l : stage_line) : O unit := fun j => (Ok tt, j ++ [Stage l]).

(** Running a stage: it starts from the events so far, and what it adds to
    them is added to the journal. *)
Definition run {A} (c : M A) : O A :=
  fun j =>
    let tr := events_of j in
    match c tr with
    | (r, tr') => (r, j ++ map Below (skipn (List.length tr) tr'))
    end.

Declare Scope O_scope.
Delimit Scope O_scope with O.
Notation "x <- c ;; k" := (obind c (fun x => k))
  (at level 61, c at next level, right associativity) : O_scope.
Notation "c ;; k" := (obind c (fun _ => k))
  (at level 61, right associativity) : O_scope.

(** The paths and names the orchestrator fixes. *)
Definition RAW_PATH : pystr := str "data/raw/mixture_raw.json".
Definition MIXTURES : pystr := str "mixtures".

Section Orchestrator.

Context {I : interpreter}.
Variable env : environment.

Local Open Scope O_scope.

Definition ensure_table_exists (table_name : pystr) : O unit :=
  say (MsgTableAssumed table_name).

(** [[clean_record(item) for item in raw_items]] *)
Fixpoint clean_all (raw_items : list value) : except (list dict) :=
  match raw_items with
  | [] => Ok []
  | item :: rest =>
      (row <- clean_record item ;;
       rows <- clean_all rest ;;
       Ok (row :: rows))%except
  end.

Definition ingest_mixture_to_supabase (save_raw : bool) : O unit :=
  say MsgRule ;; say MsgTitle ;; say MsgRule ;;
  let raw_path := if save_raw then Some RAW_PATH else None in
  raw_items <- run (fetch_mixture_data env raw_path) ;;
  say MsgBlank ;;
  say MsgCleaning ;;
  cleaned_items <- olift (clean_all raw_items) ;;
  say (MsgCleaned (len cleaned_items)) ;;
  say MsgBlank ;;
  say MsgCheckingTable ;;
  ensure_table_exists MIXTURES ;;
  say MsgBlank ;;
  say MsgUploading ;;
  run (upsert_to_supabase env cleaned_items MIXTURES 500) ;;
  say MsgBlank ;;
  say MsgRule ;; say MsgFinished ;; say MsgRule.

End Orchestrator.

(** A store that accepts two batches and rejects the third, and a client
    that cannot be created. *)
Definition third_batch_fails : environment := {|
  MIXTURE_API_BASE_URL := Some (str "http://api");
  MIXTURE_API_SERVICE_KEY := Some (str "key");
  MIXTURE_API_NUM_OF_ROWS := 2;
  http_get := fun _ r => Ok (five_page (pageNo r));
  supabase_client := fun _ => Ok tt;
  store_upsert := fun tr _ _ =>
    if (List.length (upserts_of tr) <? 2)%nat then Ok tt else Raise (StoreError 500);
  fs_do := fun _ _ => Ok tt;
  os_path_dirname := fun _ => str "data/raw"
|}.

Definition no_client : environment := {|
  MIXTURE_API_BASE_URL := Some (str "http://api");
  MIXTURE_API_SERVICE_KEY := Some (str "key");
  MIXTURE_API_NUM_OF_ROWS := 2;
  http_get := fun _ r => Ok (five_page (pageNo r));
  supabase_client := fun _ => Raise (StoreError 401);
  store_upsert := fun _ _ _ => Ok tt;
  fs_do := fun _ _ => Ok tt;
  os_path_dirname := fun _ => str "data/raw"
|}.

(** A server whose third page is refused, one that announces a negative
    count, and one that delivers a single record as an object. *)
Definition third_page_fails : environment := {|
  MIXTURE_API_BASE_URL := Some (str "http://api");
  MIXTURE_API_SERVICE_KEY := Some (str "key");
  MIXTURE_API_NUM_OF_ROWS := 2;
  http_get := fun _ r =>
    if (pageNo r =? 3) && (numOfRows r =? 2) then Raise (RequestError 503)
    else Ok (five_page (pageNo r));
  supabase_client := fun _ => Ok tt;
  store_upsert := fun _ _ _ => Ok tt;
  fs_do := fun _ _ => Ok tt;
  os_path_dirname := fun _ => str "data/raw"
|}.

Definition negative_page : value :=
  VDict [ (str "body", VDict [ (str "totalCount", VInt (-3)) ]) ].

Definition negative_env : environment := {|
  MIXTURE_API_BASE_URL := Some (str "http://api");
  MIXTURE_API_SERVICE_KEY := Some (str "key");
  MIXTURE_API_NUM_OF_ROWS := 2;
  http_get := fun _ _ => Ok negative_page;
  supabase_client := fun _ => Ok tt;
  store_upsert := fun _ _ _ => Ok tt;
  fs_do := fun _ _ => Ok tt;
  os_path_dirname := fun _ => []
|}.

Definition single_object_page : value :=
  VDict [ (str "body",
           VDict [ (str "totalCount", VInt 1);
                   (str "items",
                    VDict [ (str "item", VDict [ (str "MIX", VStr (str "A")) ]) ]) ]) ].

Definition single_object_env : environment := {|
  MIXTURE_API_BASE_URL := Some (str "http://api");
  MIXTURE_API_SERVICE_KEY := Some (str "key");
  MIXTURE_API_NUM_OF_ROWS := 2;
  http_get := fun _ _ => Ok single_object_page;
  supabase_client := fun _ => Ok tt;
  store_upsert := fun _ _ _ => Ok tt;
  fs_do := fun _ _ => Ok tt;
  os_path_dirname := fun _ => []
|}.

(** A configured environment whose server answers every request with
    [sample_page]: one page of two records. *)
Definition records_env : environment := {|
  MIXTURE_API_BASE_URL := Some (str "http://api");
  MIXTURE_API_SERVICE_KEY := Some (str "key");
  MIXTURE_API_NUM_OF_ROWS := 2;
  http_get := fun _ _ => Ok sample_page;
  supabase_client := fun _ => Ok tt;
  store_upsert := fun _ _ _ => Ok tt;
  fs_do := fun _ _ => Ok tt;
  os_path_dirname := fun _ => str "data/raw"
|}.


(** * Properties *)

(** ** True division followed by ceiling *)

Lemma round_half_even_bounds (n d : Z) :
  0 <= n -> 0 < d ->
  2 * n - d <= 2 * d * round_half_even n d <= 2 * n + d.
Proof.
  intros Hn Hd. unfold round_half_even.
  pose proof (Z.div_mod n d ltac:(lia)) as Hdm.
  pose proof (Z.mod_pos_bound n d Hd) as Hr.
  destruct (2 * (n mod d) <? d) eqn:H1; [apply Z.ltb_lt in H1; nia|].
  apply Z.ltb_ge in H1.
  destruct (d <? 2 * (n mod d)) eqn:H2; [apply Z.ltb_lt in H2; nia|].
  apply Z.ltb_ge in H2.
  destruct (Z.even (n / d)); nia.
Qed.

Lemma round_half_even_multiple (k d : Z) :
  0 < d -> round_half_even (k * d) d = k.
Proof.
  intros Hd. unfold round_half_even.
  rewrite Z.div_mul by lia. rewrite Z.mod_mul by lia.
  replace (2 * 0 <? d) with true by (symmetry; apply Z.ltb_lt; lia).
  reflexivity.
Qed.

Lemma ratio_log2_range (a b : Z) :
  0 < a < 2 ^ 53 -> 0 < b < 2 ^ 1022 -> -1022 <= ratio_log2 a b <= 52.
Proof.
  intros Ha Hb.
  assert (0 <= Z.log2 a < 53).
  { split; [apply Z.log2_nonneg|]. apply Z.log2_lt_pow2; lia. }
  assert (0 <= Z.log2 b < 1022).
  { split; [apply Z.log2_nonneg|]. apply Z.log2_lt_pow2; lia. }
  unfold ratio_log2. destruct (ratio_ge_pow2 _ _ _); lia.
Qed.

(** The exponent chosen for a/b never overshoots: 2^E <= a/b. *)
Lemma ratio_log2_below (a b : Z) :
  0 < a -> 0 < b -> ratio_log2 a b <= 52 ->
  b * 2 ^ 52 <= a * 2 ^ (52 - ratio_log2 a b).
Proof.
  intros Ha Hb. unfold ratio_log2.
  set (l := Z.log2 a - Z.log2 b).
  destruct (ratio_ge_pow2 a b l) eqn:Hge; intros HE.
  - unfold ratio_ge_pow2 in Hge.
    destruct (0 <=? l) eqn:Hl.
    + apply Z.leb_le in Hl. apply Z.leb_le in Hge.
      replace (2 ^ 52) with (2 ^ l * 2 ^ (52 - l)).
      2:{ rewrite <- Z.pow_add_r by lia. f_equal. lia. }
      assert (0 < 2 ^ (52 - l)) by (apply Z.pow_pos_nonneg; lia).
      nia.
    + apply Z.leb_gt in Hl. apply Z.leb_le in Hge.
      replace (2 ^ (52 - l)) with (2 ^ (- l) * 2 ^ 52).
      2:{ rewrite <- Z.pow_add_r by lia. f_equal. lia. }
      nia.
  - pose proof (Z.log2_spec a Ha) as [Ha1 _].
    pose proof (Z.log2_spec b Hb) as [_ Hb2].
    pose proof (Z.log2_nonneg a). pose proof (Z.log2_nonneg b).
    replace (52 - (l - 1)) with (53 - Z.log2 a + Z.log2 b) by (unfold l; lia).
    assert (Hp : 2 ^ Z.log2 a * 2 ^ (53 - Z.log2 a + Z.log2 b)
                 = 2 ^ Z.succ (Z.log2 b) * 2 ^ 52).
    { rewrite <- !Z.pow_add_r by (unfold l in HE; lia). f_equal. lia. }
    assert (0 < 2 ^ (53 - Z.log2 a + Z.log2 b))
      by (apply Z.pow_pos_nonneg; unfold l in HE; lia).
    nia.
Qed.

(** For a numerator below 2^53, and a divisor that keeps the quotient in
    the normal range, the rounding of the quotient never crosses an
    integer: the ceiling of the float quotient is the exact ceiling. *)
Lemma true_div_ceil_exact (a b : Z) :
  0 <= a < 2 ^ 53 -> 0 < b < 2 ^ 1022 ->
  ebind (int_true_div a b) math_ceil = Ok (ceil_div a b).
Proof.
  intros Ha Hb. unfold int_true_div.
  replace (b =? 0) with false by (symmetry; apply Z.eqb_neq; lia).
  destruct (a =? 0) eqn:Ha0.
  { apply Z.eqb_eq in Ha0. subst a.
    replace (b <? 0) with false by (symmetry; apply Z.ltb_ge; lia).
    unfold ceil_div. change (- 0) with 0. rewrite Z.div_0_l by lia. reflexivity. }
  apply Z.eqb_neq in Ha0.
  rewrite (Z.abs_eq a), (Z.abs_eq b) by lia.
  replace (a <? 0) with false by (symmetry; apply Z.ltb_ge; lia).
  replace (b <? 0) with false by (symmetry; apply Z.ltb_ge; lia).
  pose proof (ratio_log2_range a b ltac:(lia) Hb) as HE.
  pose proof (ratio_log2_below a b ltac:(lia) ltac:(lia) ltac:(lia)) as Hlow.
  unfold binary64_of_ratio.
  rewrite Z.max_l by lia.
  set (s := 52 - ratio_log2 a b) in *.
  replace (ratio_log2 a b - 52) with (- s) by (unfold s; lia).
  assert (Hs : 0 <= s) by (unfold s; lia).
  (* both branches of the scaling compute the same significand *)
  assert (Hm : (if 0 <=? - s then round_half_even a (b * 2 ^ (- s))
                else round_half_even (a * 2 ^ (- - s)) b)
               = round_half_even (a * 2 ^ s) b).
  { destruct (0 <=? - s) eqn:H0.
    - apply Z.leb_le in H0. assert (s = 0) by lia. subst s.
      replace (52 - ratio_log2 a b) with 0 in * by lia.
      simpl. rewrite !Z.mul_1_r. reflexivity.
    - rewrite Z.opp_involutive. reflexivity. }
  rewrite Hm. clear Hm.
  set (m := round_half_even (a * 2 ^ s) b).
  assert (Hp : 0 < 2 ^ s) by (apply Z.pow_pos_nonneg; lia).
  assert (Hb2 : b < 2 * 2 ^ s) by nia.
  pose proof (Z.div_mod a b ltac:(lia)) as Hdm.
  pose proof (Z.mod_pos_bound a b ltac:(lia)) as Hr.
  pose proof (Z.div_pos a b ltac:(lia) ltac:(lia)) as Hk.
  set (k := a / b) in *. set (r := a mod b) in *.
  (* the significand lies in (k*2^s, (k+1)*2^s], or is k*2^s when b | a *)
  assert (Hmb : (r = 0 /\ m = k * 2 ^ s) \/
                (0 < r /\ k * 2 ^ s < m <= (k + 1) * 2 ^ s)).
  { destruct (Z.eq_dec r 0) as [Hr0|Hr0].
    - left. split; [assumption|]. unfold m.
      replace (a * 2 ^ s) with ((k * 2 ^ s) * b) by nia.
      apply round_half_even_multiple. lia.
    - right. split; [lia|].
      pose proof (round_half_even_bounds (a * 2 ^ s) b ltac:(nia) ltac:(lia)) as Hbd.
      fold m in Hbd. split; nia. }
  assert (Hnov : binary64_overflows m (- s) = false).
  { unfold binary64_overflows. destruct (0 <=? - s) eqn:H0; [|reflexivity].
    apply Z.leb_le in H0. assert (s = 0) by lia.
    replace (- s) with 0 by lia. simpl. rewrite Z.mul_1_r.
    apply Z.leb_gt.
    assert (2 ^ s = 1) by (replace s with 0 by lia; reflexivity).
    assert (k <= a) by nia.
    assert (2 ^ 53 < 2 ^ 1024) by (apply Z.pow_lt_mono_r; lia).
    destruct Hmb as [[_ Hm]|[_ Hm]]; nia. }
  rewrite Hnov. simpl ebind. unfold math_ceil. simpl xorb. cbv iota.
  unfold ceil_div. fold k.
  assert (Hceil : - (- m / 2 ^ s) = - (- a / b)).
  { destruct Hmb as [[Hr0 Hm]|[Hr0 Hm]].
    - rewrite Hm. replace (- (k * 2 ^ s)) with ((- k) * 2 ^ s) by lia.
      rewrite Z.div_mul by lia.
      replace (- a) with ((- k) * b) by nia.
      rewrite Z.div_mul by lia. reflexivity.
    - assert (- m / 2 ^ s = - (k + 1)).
      { symmetry. apply (Z.div_unique _ _ _ ((k + 1) * 2 ^ s - m)); nia. }
      assert (- a / b = - (k + 1)).
      { symmetry. apply (Z.div_unique _ _ _ (b - r)); nia. }
      lia. }
  destruct (0 <=? - s) eqn:H0.
  - apply Z.leb_le in H0. assert (Hs0 : s = 0) by lia.
    rewrite <- Hceil. rewrite Hs0. simpl. rewrite Z.mul_1_r.
    rewrite Z.div_1_r. f_equal. lia.
  - rewrite Z.opp_involutive. f_equal. exact Hceil.
Qed.

(** ** Strings and dicts *)

Lemma str_eqb_eq (s t : pystr) : str_eqb s t = true <-> s = t.
Proof.
  revert t. induction s as [|c s IH]; intros [|d t]; simpl; split;
    try discriminate; try reflexivity.
  - intros H. apply andb_true_iff in H as [Hc Hs].
    apply N.eqb_eq in Hc. apply IH in Hs. congruence.
  - intros H. injection H as -> ->. apply andb_true_iff. split.
    + apply N.eqb_refl.
    + apply IH. reflexivity.
Qed.

Lemma str_eqb_refl (s : pystr) : str_eqb s s = true.
Proof. apply str_eqb_eq. reflexivity. Qed.

Lemma str_eqb_neq (s t : pystr) : str_eqb s t = false <-> s <> t.
Proof.
  pose proof (str_eqb_eq s t) as H.
  destruct (str_eqb s t); split.
  - discriminate.
  - intros Hne. exfalso. apply Hne, H. reflexivity.
  - intros _ E. apply H in E. discriminate.
  - reflexivity.
Qed.

(** Assigning a key the dict does not hold appends it. *)
Lemma dict_set_fresh (d : dict) (k : pystr) (v : value) :
  ~ In k (dict_keys d) -> dict_set d k v = d ++ [(k, v)].
Proof.
  induction d as [|[k' v'] d IH]; simpl; intros H; [reflexivity|].
  destruct (str_eqb k' k) eqn:E.
  - apply str_eqb_eq in E. tauto.
  - rewrite IH by tauto. reflexivity.
Qed.

Lemma dict_get_map (g : pystr -> value) (cols : list pystr) (col : pystr) :
  In col cols -> dict_get (map (fun c => (c, g c)) cols) col = Some (g col).
Proof.
  induction cols as [|c cols IH]; simpl; intros H; [contradiction|].
  destruct (str_eqb c col) eqn:E.
  - apply str_eqb_eq in E. subst. reflexivity.
  - destruct H as [->|H]; [rewrite str_eqb_refl in E; discriminate|].
    apply IH, H.
Qed.

Lemma MIXTURE_COLUMNS_NoDup : NoDup MIXTURE_COLUMNS.
Proof.
  unfold MIXTURE_COLUMNS.
  repeat (constructor; [vm_compute; intuition discriminate|]).
  constructor.
Qed.

Lemma MIXTURE_COLUMNS_upper (col : pystr) :
  In col MIXTURE_COLUMNS -> upper col = col.
Proof.
  unfold MIXTURE_COLUMNS. simpl. intros H.
  repeat (destruct H as [<-|H]; [vm_compute; reflexivity|]).
  contradiction.
Qed.

(** ** The DEL_YN test *)

Lemma float_eq_int_zero (f : pyfloat) :
  float_eq_int f 0 = true <-> exists neg e, f = FFinite neg 0 e.
Proof.
  destruct f as [neg m e| |]; unfold float_eq_int.
  - assert (Hm : (if neg then - m else m) = 0 <-> m = 0) by (destruct neg; lia).
    destruct (0 <=? e) eqn:He; rewrite Z.eqb_eq.
    + apply Z.leb_le in He.
      assert (0 < 2 ^ e) by (apply Z.pow_pos_nonneg; lia).
      split.
      * intros H0. exists neg, e. f_equal. apply Hm. nia.
      * intros (n' & e' & H0). injection H0 as _ -> _. destruct neg; reflexivity.
    + rewrite Z.mul_0_l. split.
      * intros H0. exists neg, e. f_equal. apply Hm, H0.
      * intros (n' & e' & H0). injection H0 as _ -> _. destruct neg; reflexivity.
  - split; [discriminate|]. intros (? & ? & H). discriminate.
  - split; [discriminate|]. intros (? & ? & H). discriminate.
Qed.

Ltac refute_disjuncts H :=
  repeat (destruct H as [H|H]; [try discriminate; try congruence|]);
  try (destruct H as (? & ? & H); discriminate).

Lemma del_falsy_test (val : value) :
  eq_literal val (LStr NORMAL) || in_literals val DEL_FALSY = true
  <-> del_falsy_value val.
Proof.
  unfold in_literals, DEL_FALSY, del_falsy_value.
  cbn [existsb eq_literal].
  destruct val as [|b|z|f|s|l|d]; cbn [eq_int Z_of_bool].
  - split; [discriminate|]. intros H. refute_disjuncts H.
  - destruct b; cbn; split; try discriminate; auto 20.
    intros H. refute_disjuncts H.
  - destruct (z =? 0) eqn:E; cbn.
    + apply Z.eqb_eq in E. subst. split; auto 20.
    + apply Z.eqb_neq in E. split; [discriminate|].
      intros H. refute_disjuncts H.
  - pose proof (float_eq_int_zero f) as Hz.
    destruct (float_eq_int f 0); cbn.
    + split; [|reflexivity]. intros _.
      destruct (proj1 Hz eq_refl) as (neg & e & ->). do 9 right. eauto.
    + split; [discriminate|]. intros H.
      repeat (destruct H as [H|H]; [discriminate|]).
      destruct H as (neg & e & H). injection H as ->.
      destruct Hz as [_ Hz]. discriminate Hz. eauto.
  - rewrite !orb_true_iff, !str_eqb_eq.
    split.
    + intros [H|[H|[H|[H|[H|[H|[H|[H|[H|H]]]]]]]]];
        try discriminate; subst; auto 20.
    + intros H.
      repeat (destruct H as [H|H];
              [try discriminate; injection H as ->; auto 20|]).
      destruct H as (? & ? & H). discriminate.
  - split; [discriminate|]. intros H. refute_disjuncts H.
  - split; [discriminate|]. intros H. refute_disjuncts H.
Qed.

(** ** The normaliser on dicts *)

Section Normaliser.

Context {I : interpreter}.

(** On a dict the lookup chain cannot raise and finds [resolved]. *)
Lemma lookup_column_dict (d : dict) (col : pystr) :
  lookup_column (VDict d) col = Ok (resolved d col).
Proof.
  unfold lookup_column, resolved, py_contains, py_getitem, dict_has. simpl.
  destruct (dict_get d col); [reflexivity|].
  destruct (dict_get d (lower col)); [reflexivity|].
  destruct (dict_get d (upper col)); reflexivity.
Qed.

Lemma clean_columns_dict (d : dict) (cols pre : list pystr) :
  NoDup (pre ++ cols) ->
  clean_columns (VDict d) cols
                (map (fun c => (c, clean_value c (resolved d c))) pre)
  = Ok (map (fun c => (c, clean_value c (resolved d c))) (pre ++ cols)).
Proof.
  revert pre. induction cols as [|col cols IH]; intros pre Hnd.
  - rewrite app_nil_r. reflexivity.
  - simpl. rewrite lookup_column_dict. simpl.
    rewrite dict_set_fresh.
    + replace (pre ++ col :: cols) with ((pre ++ [col]) ++ cols)
        by (rewrite <- app_assoc; reflexivity).
      rewrite <- IH.
      * rewrite map_app. reflexivity.
      * rewrite <- app_assoc. exact Hnd.
    + unfold dict_keys. rewrite map_map. simpl. rewrite map_id.
      apply NoDup_remove_2 in Hnd. intros Hin. apply Hnd.
      apply in_or_app. left. exact Hin.
Qed.

(** The normalised record of a dict, column by column. *)
Lemma clean_record_dict (d : dict) :
  clean_record (VDict d)
  = Ok (map (fun c => (c, clean_value c (resolved d c))) MIXTURE_COLUMNS).
Proof.
  unfold clean_record.
  apply (clean_columns_dict d MIXTURE_COLUMNS []).
  exact MIXTURE_COLUMNS_NoDup.
Qed.

Lemma clean_value_type (col : pystr) (val : value) :
  column_type col (clean_value col val).
Proof.
  unfold column_type, clean_value.
  destruct (str_eqb col (str "NOTIFICATION_DATE")).
  - destruct (_parse_date_yyyymmdd val); eauto.
  - destruct (str_eqb col (str "DEL_YN")).
    + destruct (_ || _); eauto.
    + destruct val; eauto.
Qed.

Lemma clean_value_default (col : pystr) :
  clean_value col VNone = default_value col.
Proof.
  unfold default_value, clean_value.
  destruct (str_eqb col (str "NOTIFICATION_DATE")); [reflexivity|].
  destruct (str_eqb col (str "DEL_YN")); reflexivity.
Qed.

(** C2. For every dict, clean_record returns a record whose keys are
    exactly the 19 canonical columns (pairwise distinct, in the order of
    MIXTURE_COLUMNS) whatever keys the input had, and whose values are strs,
    except NOTIFICATION_DATE (a str or None) and DEL_YN (a bool). *)
Theorem C2_canonical_key_set (d : dict) :
  exists out,
    clean_record (VDict d) = Ok out /\
    dict_keys out = MIXTURE_COLUMNS /\
    NoDup MIXTURE_COLUMNS /\
    List.length MIXTURE_COLUMNS = 19%nat /\
    Forall (fun kv => column_type (fst kv) (snd kv)) out.
Proof.
  eexists. split; [apply clean_record_dict|].
  split; [|split; [exact MIXTURE_COLUMNS_NoDup|split; [reflexivity|]]].
  - unfold dict_keys. rewrite map_map. exact (map_id MIXTURE_COLUMNS).
  - apply Forall_forall. intros [k v] Hin.
    apply in_map_iff in Hin as [c [Hc _]]. injection Hc as <- <-.
    simpl. apply clean_value_type.
Qed.

(** C8. For every dict, clean_record returns normally, and a column for
    which the record has no value, or null, gets its default: the empty
    string for a plain column (None for NOTIFICATION_DATE, True for
    DEL_YN). *)
Theorem C8_normaliser_total (d : dict) :
  exists out,
    clean_record (VDict d) = Ok out /\
    forall col,
      In col MIXTURE_COLUMNS ->
      resolved d col = VNone ->
      dict_get out col = Some (default_value col) /\
      (col <> str "NOTIFICATION_DATE" -> col <> str "DEL_YN" ->
       dict_get out col = Some (VStr [])).
Proof.
  eexists. split; [apply clean_record_dict|].
  intros col Hin Hnull.
  rewrite (dict_get_map (fun c => clean_value c (resolved d c))) by exact Hin.
  rewrite Hnull, clean_value_default. split; [reflexivity|].
  intros H1 H2. unfold default_value.
  apply str_eqb_neq in H1, H2. rewrite H1, H2. reflexivity.
Qed.

(** C3. DEL_YN is false exactly when the looked-up value is the token for
    "normal" or one of False, "f", "false", "False", "N", "n", "0", numeric
    zero; every other value, null or missing included, gives true. *)
Theorem C3_del_yn_coercion :
  (forall val, exists b,
      clean_value (str "DEL_YN") val = VBool b /\
      (b = false <-> del_falsy_value val) /\
      (b = true <-> ~ del_falsy_value val)) /\
  clean_value (str "DEL_YN") VNone = VBool true /\
  (forall d : dict, exists out,
      clean_record (VDict d) = Ok out /\
      dict_get out (str "DEL_YN")
      = Some (clean_value (str "DEL_YN") (resolved d (str "DEL_YN")))).
Proof.
  split; [|split; [reflexivity|]].
  - intros val. pose proof (del_falsy_test val) as Ht.
    unfold clean_value.
    replace (str_eqb (str "DEL_YN") (str "NOTIFICATION_DATE")) with false
      by reflexivity.
    replace (str_eqb (str "DEL_YN") (str "DEL_YN")) with true by reflexivity.
    destruct (eq_literal val (LStr NORMAL) || in_literals val DEL_FALSY).
    + exists false. split; [reflexivity|]. split.
      * split; [intros _; apply Ht; reflexivity|reflexivity].
      * split; [discriminate|]. intros Hn. exfalso. apply Hn, Ht. reflexivity.
    + exists true. split; [reflexivity|]. split.
      * split; [discriminate|]. intros Hd. apply Ht in Hd. discriminate.
      * split; [|reflexivity]. intros _ Hd. apply Ht in Hd. discriminate.
  - intros d. eexists. split; [apply clean_record_dict|].
    apply (dict_get_map (fun c => clean_value c (resolved d c))).
    unfold MIXTURE_COLUMNS. simpl. auto 30.
Qed.

(** C4, as the code has it.  A falsy value (null, the empty string, 0,
    False, an empty list or dict) gives None.  Any other value is turned
    into text and stripped; when that text is eight digits YYYYMMDD the
    result is YYYY-MM-DD, otherwise the result is the stripped text.  So
    "20230115" gives "2023-01-15", "2023-01-15" stays as it is, and None
    and "" give None. *)
Theorem C4_notification_date (v : value) :
  (truthy v = false -> _parse_date_yyyymmdd v = None) /\
  (forall y1 y2 y3 y4 m1 m2 d1 d2,
      truthy v = true ->
      strip (py_str v) = [y1; y2; y3; y4; m1; m2; d1; d2] ->
      forallb is_digit [y1; y2; y3; y4; m1; m2; d1; d2] = true ->
      _parse_date_yyyymmdd v
      = Some [y1; y2; y3; y4; 45%N; m1; m2; 45%N; d1; d2]) /\
  (truthy v = true ->
   len (strip (py_str v)) <> 8 \/
   isdigit (strip (py_str v)) = false ->
   _parse_date_yyyymmdd v = Some (strip (py_str v))) /\
  _parse_date_yyyymmdd (VStr (str "20230115")) = Some (str "2023-01-15") /\
  _parse_date_yyyymmdd (VStr (str "2023-01-15")) = Some (str "2023-01-15") /\
  _parse_date_yyyymmdd VNone = None /\
  _parse_date_yyyymmdd (VStr []) = None.
Proof.
  unfold _parse_date_yyyymmdd.
  split; [|split; [|split]].
  - intros ->. reflexivity.
  - intros y1 y2 y3 y4 m1 m2 d1 d2 -> -> Hd. cbn [negb].
    replace (len [y1; y2; y3; y4; m1; m2; d1; d2] =? 8) with true by reflexivity.
    unfold isdigit. rewrite Hd. reflexivity.
  - intros -> H. cbn [negb].
    destruct H as [H|H].
    + apply Z.eqb_neq in H. rewrite H. reflexivity.
    + rewrite H, andb_false_r. reflexivity.
  - repeat split; reflexivity.
Qed.

(** C6. The lookup tries the exact column name, then its lower case, then
    its upper case, and gives null when all three are missing, and what
    clean_record stores under a column is the conversion of the value found
    that way: the exact spelling wins over the lower-case one, the
    lower-case one is used when the exact one is absent, and a column found
    under neither holds its default (every column name is its own upper
    case, so the third step finds nothing the first did not).  So a record
    that carries the values under lower-case keys and one that carries
    them under upper-case keys normalise to the same record, which holds,
    column by column, the conversion of the carried value: for a text
    column carrying a str, that str stripped. *)
Theorem C6_case_insensitive_lookup (lo up : dict) (vals : pystr -> option value) :
  (forall col, In col MIXTURE_COLUMNS ->
               dict_get lo col = None /\ dict_get lo (lower col) = vals col) ->
  (forall col, In col MIXTURE_COLUMNS ->
               dict_get up (upper col) = vals col /\ dict_get up (lower col) = None) ->
  clean_record (VDict lo) = clean_record (VDict up) /\
  (forall col, In col MIXTURE_COLUMNS ->
               resolved lo col = match vals col with Some v => v | None => VNone end) /\
  (forall (d : dict) col,
      lookup_column (VDict d) col = Ok (resolved d col) /\
      (forall v, dict_get d col = Some v -> resolved d col = v) /\
      (forall v, dict_get d col = None -> dict_get d (lower col) = Some v ->
                 resolved d col = v) /\
      (forall v, dict_get d col = None -> dict_get d (lower col) = None ->
                 dict_get d (upper col) = Some v -> resolved d col = v) /\
      (dict_get d col = None -> dict_get d (lower col) = None ->
       dict_get d (upper col) = None -> resolved d col = VNone)) /\
  (exists out,
      clean_record (VDict lo) = Ok out /\
      clean_record (VDict up) = Ok out /\
      dict_keys out = MIXTURE_COLUMNS /\
      forall col, In col MIXTURE_COLUMNS ->
        dict_get out col
        = Some (clean_value col
                  (match vals col with Some v => v | None => VNone end)) /\
        (vals col = None -> dict_get out col = Some (default_value col)) /\
        (forall s, col <> str "NOTIFICATION_DATE" -> col <> str "DEL_YN" ->
                   vals col = Some (VStr s) ->
                   dict_get out col = Some (VStr (strip s)))) /\
  (forall d : dict, exists out,
      clean_record (VDict d) = Ok out /\
      forall col, In col MIXTURE_COLUMNS ->
        upper col = col /\
        (forall v, dict_get d col = Some v ->
                   dict_get out col = Some (clean_value col v)) /\
        (forall v, dict_get d col = None -> dict_get d (lower col) = Some v ->
                   dict_get out col = Some (clean_value col v)) /\
        (dict_get d col = None -> dict_get d (lower col) = None ->
         dict_get out col = Some (default_value col)) /\
        (forall s, col <> str "NOTIFICATION_DATE" -> col <> str "DEL_YN" ->
                   dict_get d col = Some (VStr s) ->
                   dict_get out col = Some (VStr (strip s))) /\
        (forall s, col <> str "NOTIFICATION_DATE" -> col <> str "DEL_YN" ->
                   dict_get d col = None -> dict_get d (lower col) = Some (VStr s) ->
                   dict_get out col = Some (VStr (strip s)))).
Proof.
  intros Hlo Hup.
  assert (Hl : forall col, In col MIXTURE_COLUMNS ->
             resolved lo col = match vals col with Some v => v | None => VNone end).
  { intros col Hin. destruct (Hlo col Hin) as [H1 H2].
    unfold resolved. rewrite H1, H2.
    destruct (vals col); [reflexivity|].
    rewrite (MIXTURE_COLUMNS_upper col Hin), H1. reflexivity. }
  assert (Hu : forall col, In col MIXTURE_COLUMNS ->
             resolved up col = match vals col with Some v => v | None => VNone end).
  { intros col Hin. destruct (Hup col Hin) as [H1 H2].
    unfold resolved. rewrite H2.
    rewrite (MIXTURE_COLUMNS_upper col Hin) in *. rewrite H1.
    destruct (vals col); reflexivity. }
  assert (Hsame : clean_record (VDict lo) = clean_record (VDict up)).
  { rewrite !clean_record_dict. f_equal.
    apply map_ext_in. intros col Hin. rewrite Hl, Hu by exact Hin. reflexivity. }
  assert (Htext : forall col s,
             col <> str "NOTIFICATION_DATE" -> col <> str "DEL_YN" ->
             clean_value col (VStr s) = VStr (strip s)).
  { intros col s Hd Hy. unfold clean_value.
    apply str_eqb_neq in Hd. apply str_eqb_neq in Hy. rewrite Hd, Hy.
    reflexivity. }
  split; [exact Hsame|]. split; [exact Hl|]. split; [|split].
  - intros d col. split; [apply lookup_column_dict|].
    unfold resolved.
    repeat split; intros; repeat match goal with H : _ = _ |- _ => rewrite H end;
      reflexivity.
  - eexists. split; [apply clean_record_dict|].
    split; [rewrite <- Hsame; apply clean_record_dict|].
    split.
    { unfold dict_keys. rewrite map_map. exact (map_id MIXTURE_COLUMNS). }
    intros col Hin.
    rewrite (dict_get_map (fun c => clean_value c (resolved lo c))) by exact Hin.
    rewrite (Hl col Hin).
    split; [reflexivity|]. split.
    + intros ->. rewrite clean_value_default. reflexivity.
    + intros s Hd Hy ->. rewrite (Htext col s Hd Hy). reflexivity.
  - intros d. eexists. split; [apply clean_record_dict|].
    intros col Hin.
    rewrite (dict_get_map (fun c => clean_value c (resolved d c))) by exact Hin.
    pose proof (MIXTURE_COLUMNS_upper col Hin) as Hup'.
    unfold resolved. rewrite Hup'.
    split; [reflexivity|].
    split; [intros v ->; reflexivity|].
    split; [intros v -> ->; reflexivity|].
    split; [intros -> ->; rewrite clean_value_default; reflexivity|].
    split.
    + intros s Hd Hy ->. rewrite (Htext col s Hd Hy). reflexivity.
    + intros s Hd Hy -> ->. rewrite (Htext col s Hd Hy). reflexivity.
Qed.

End Normaliser.

(** The normaliser is total on dicts only: a number is not a container,
    and a str that contains a column name cannot be indexed by it. *)
Example clean_record_of_number_raises :
  clean_record (I := ascii_interpreter) (VInt 1) = Raise TypeError.
Proof. reflexivity. Qed.

Example clean_record_of_str_raises :
  clean_record (I := ascii_interpreter) (VStr (str "REMARK")) = Raise TypeError.
Proof. reflexivity. Qed.

(** C4 as stated fails on the number 0: it is neither null nor empty, its
    stripped text is "0", and the result is None, not "0". *)
Lemma C4_zero_gives_none :
  _parse_date_yyyymmdd (I := ascii_interpreter) (VInt 0) = None /\
  strip (py_str (I := ascii_interpreter) (VInt 0)) = str "0" /\
  VInt 0 <> VNone /\ VInt 0 <> VStr [].
Proof. repeat split; try reflexivity; discriminate. Qed.

(** A padded date is not an eight-character string, yet it is reformatted,
    because the test is made on the stripped text. *)
Example padded_date_is_reformatted :
  len (str " 20230115 ") = 10 /\
  _parse_date_yyyymmdd (I := ascii_interpreter) (VStr (str " 20230115 "))
  = Some (str "2023-01-15").
Proof. split; reflexivity. Qed.

Lemma C4_notification_date_witness :
  _parse_date_yyyymmdd (I := ascii_interpreter) (VInt 20230115)
  = Some (str "2023-01-15").
Proof.
  apply (proj1 (proj2 (@C4_notification_date ascii_interpreter
                                            (VInt 20230115))));
    reflexivity.
Defined.

Lemma C6_case_insensitive_lookup_witness :
  clean_record (I := ascii_interpreter) (VDict lower_keyed)
  = clean_record (I := ascii_interpreter) (VDict upper_keyed).
Proof.
  apply (@C6_case_insensitive_lookup ascii_interpreter
           lower_keyed upper_keyed (dict_get upper_keyed)).
  - intros col H. unfold MIXTURE_COLUMNS in H. simpl in H.
    repeat (destruct H as [<-|H]; [split; reflexivity|]). contradiction.
  - intros col H. unfold MIXTURE_COLUMNS in H. simpl in H.
    repeat (destruct H as [<-|H]; [split; reflexivity|]). contradiction.
Defined.

(** The record both spellings normalise to, and the exact spelling winning
    over the lower-case one wherever the two keys stand in the raw record. *)
Example lower_keyed_normalised :
  exists out,
    clean_record (I := ascii_interpreter) (VDict lower_keyed) = Ok out /\
    clean_record (I := ascii_interpreter) (VDict upper_keyed) = Ok out /\
    dict_get out (str "MIX") = Some (VStr (str "A")) /\
    dict_get out (str "DEL_YN") = Some (VBool false) /\
    dict_get out (str "NOTIFICATION_DATE") = Some (VStr (str "2023-01-15")) /\
    dict_get out (str "REMARK") = Some (VStr []).
Proof. eexists. repeat split; reflexivity. Qed.

Example exact_key_wins_over_lower :
  exists out,
    clean_record (I := ascii_interpreter)
      (VDict [ (str "remark", VStr (str "l")); (str "REMARK", VStr (str "u")) ])
    = Ok out /\
    dict_get out (str "REMARK") = Some (VStr (str "u")).
Proof. eexists. split; reflexivity. Qed.

(** ** The collector *)

Lemma ceil_div_spec (a b : Z) :
  0 < b -> (ceil_div a b - 1) * b < a <= ceil_div a b * b.
Proof.
  intros Hb. unfold ceil_div.
  pose proof (Z.div_mod (- a) b ltac:(lia)) as Hdm.
  pose proof (Z.mod_pos_bound (- a) b Hb) as Hr.
  nia.
Qed.

Lemma total_pages_of_int (total_count num_of_rows : Z) :
  0 <= total_count < 2 ^ 53 -> 0 < num_of_rows < 2 ^ 1022 ->
  total_pages_of (VInt total_count) num_of_rows
  = Ok (ceil_div total_count num_of_rows).
Proof.
  intros Hc Hn. unfold total_pages_of.
  replace (0 <? num_of_rows) with true by (symmetry; apply Z.ltb_lt; lia).
  exact (true_div_ceil_exact total_count num_of_rows Hc Hn).
Qed.

Lemma total_pages_of_zero (num_of_rows : Z) :
  0 < num_of_rows -> total_pages_of (VInt 0) num_of_rows = Ok 0.
Proof.
  intros Hn. unfold total_pages_of, py_truediv, int_true_div.
  replace (0 <? num_of_rows) with true by (symmetry; apply Z.ltb_lt; lia).
  replace (num_of_rows =? 0) with false by (symmetry; apply Z.eqb_neq; lia).
  replace (num_of_rows <? 0) with false by (symmetry; apply Z.ltb_ge; lia).
  reflexivity.
Qed.

(** C1, as the code has it.  For a count below 2^53 (where the float
    quotient rounds to the right side of every integer) and a positive page
    size, the page count is the ceiling of totalCount / pageSize, with no
    minimum: it is the one integer k with (k-1) * pageSize < totalCount <=
    k * pageSize, hence 0 for totalCount = 0.  The value 1 is the fallback
    for a page size that is not positive. *)
Theorem C1_total_pages (total_count page_size : Z) :
  0 <= total_count < 2 ^ 53 ->
  page_size < 2 ^ 1022 ->
  exists total_pages,
    total_pages_of (VInt total_count) page_size = Ok total_pages /\
    (0 < page_size ->
     (total_pages - 1) * page_size < total_count <= total_pages * page_size) /\
    (0 < page_size -> total_count = 0 -> total_pages = 0) /\
    (page_size <= 0 -> total_pages = 1).
Proof.
  intros Hc Hp.
  destruct (Z_lt_le_dec 0 page_size) as [Hpos|Hnpos].
  - exists (ceil_div total_count page_size).
    split; [apply total_pages_of_int; lia|].
    pose proof (ceil_div_spec total_count page_size Hpos) as Hs.
    split; [intros _; exact Hs|]. split; [|lia].
    intros _ ->. nia.
  - exists 1. unfold total_pages_of.
    replace (0 <? page_size) with false by (symmetry; apply Z.ltb_ge; lia).
    split; [reflexivity|]. split; [lia|]. split; [lia|reflexivity].
Qed.

Lemma C1_total_pages_witness : total_pages_of (VInt 1001) 500 = Ok 3.
Proof.
  destruct (C1_total_pages 1001 500) as (k & Hk & Hb & _).
  - split; [lia|reflexivity].
  - reflexivity.
  - rewrite Hk. f_equal. specialize (Hb eq_refl). lia.
Defined.

(** C1 as stated fails at totalCount = 0: the page count is 0, not 1. *)
Lemma C1_zero_count_zero_pages :
  total_pages_of (VInt 0) 500 = Ok 0 /\
  total_pages_of (VInt 0) 500 <> Ok (Z.max 1 (ceil_div 0 500)).
Proof. split; [reflexivity|discriminate]. Qed.

(** Beyond 2^53 the float quotient loses the last bit and the page count
    falls short of the exact ceiling. *)
Example total_pages_rounds_beyond_2_53 :
  total_pages_of (VInt (2 ^ 53 + 1)) 1 = Ok (2 ^ 53) /\
  ceil_div (2 ^ 53 + 1) 1 = 2 ^ 53 + 1.
Proof. split; vm_compute; reflexivity. Qed.

Section Collector.

Variable env : environment.

Lemma probe_pages_no_records (first_page : value) (num_of_rows : Z) :
  0 < num_of_rows ->
  reports_no_records first_page ->
  exists body,
    py_get first_page (str "body") (VDict []) = Ok body /\
    py_get body (str "totalCount") (VInt 0) = Ok (VInt 0).
Proof.
  intros Hn (d & -> & H). unfold py_get.
  destruct H as [H|(b & H & Hb)]; rewrite H.
  - exists (VDict []). split; reflexivity.
  - exists (VDict b). split; [reflexivity|].
    destruct Hb as [Hb|Hb]; rewrite Hb; reflexivity.
Qed.

(** C10. When the probe reports no records and the page size is positive,
    fetch_all_from_api sends the probe request and no other, prints its
    two summary lines, and returns the empty list. *)
Theorem C10_no_records_no_page_fetch
        (base_url : pystr) (num_of_rows : Z) (service_key : option pystr)
        (label : pystr) (tr : trace) (first_page : value) :
  0 < num_of_rows ->
  http_get env tr (page_request env base_url service_key 1 1) = Ok first_page ->
  reports_no_records first_page ->
  fetch_all_from_api env base_url num_of_rows service_key label tr
  = (Ok [],
     tr ++ [ EvRequest (page_request env base_url service_key 1 1);
             EvPrint (MsgCollectStart label (VInt 0) 0);
             EvPrint (MsgCollectDone label 0) ]).
Proof.
  intros Hn Hget Hrep.
  destruct (probe_pages_no_records first_page num_of_rows Hn Hrep)
    as (body & Hbody & Hcount).
  unfold fetch_all_from_api, fetch_page, bind, call, lift, emit, ret.
  fold (page_request env base_url service_key 1 1).
  rewrite Hget, Hbody, Hcount, (total_pages_of_zero num_of_rows Hn).
  cbn. rewrite <- !app_assoc. reflexivity.
Qed.

(** C9. When the base URL or the service key is unset or empty,
    fetch_mixture_data raises its configuration ValueError and leaves the
    trace as it was: no request is sent, nothing is printed or written. *)
Theorem C9_config_check_before_io (save_path : option pystr) (tr : trace) :
  MIXTURE_API_BASE_URL env = None \/ MIXTURE_API_BASE_URL env = Some [] \/
  MIXTURE_API_SERVICE_KEY env = None \/ MIXTURE_API_SERVICE_KEY env = Some [] ->
  exists msg,
    fetch_mixture_data env save_path tr = (Raise (ValueError msg), tr) /\
    (msg = SetBaseUrl \/ msg = SetServiceKey) /\
    (msg = SetBaseUrl <->
     MIXTURE_API_BASE_URL env = None \/ MIXTURE_API_BASE_URL env = Some []).
Proof.
  intros H. unfold fetch_mixture_data, raise.
  destruct (MIXTURE_API_BASE_URL env) as [[|c url]|].
  - exists SetBaseUrl. repeat split; auto.
  - destruct (MIXTURE_API_SERVICE_KEY env) as [[|c' key]|].
    + exists SetServiceKey. repeat split; auto; try discriminate.
      intros [H0|H0]; discriminate.
    + exfalso. destruct H as [H|[H|[H|H]]]; discriminate.
    + exists SetServiceKey. repeat split; auto; try discriminate.
      intros [H0|H0]; discriminate.
  - exists SetBaseUrl. repeat split; auto.
Qed.

End Collector.

Lemma C10_no_records_no_page_fetch_witness :
  fetch_all_from_api empty_env (str "http://api") 500 None MIXTURE_LABEL []
  = (Ok [],
     [] ++ [ EvRequest (page_request empty_env (str "http://api") None 1 1);
             EvPrint (MsgCollectStart MIXTURE_LABEL (VInt 0) 0);
             EvPrint (MsgCollectDone MIXTURE_LABEL 0) ]).
Proof.
  apply (C10_no_records_no_page_fetch empty_env (str "http://api") 500 None
           MIXTURE_LABEL [] empty_page).
  - reflexivity.
  - reflexivity.
  - exists [ (str "body", VDict [ (str "totalCount", VInt 0); (str "items", VList []) ]) ].
    split; [reflexivity|]. right.
    exists [ (str "totalCount", VInt 0); (str "items", VList []) ].
    split; [reflexivity|]. right. reflexivity.
Defined.

Lemma C9_config_check_before_io_witness :
  exists msg,
    fetch_mixture_data sample_env None [] = (Raise (ValueError msg), []) /\
    (msg = SetBaseUrl \/ msg = SetServiceKey) /\
    (msg = SetBaseUrl <->
     MIXTURE_API_BASE_URL sample_env = None \/
     MIXTURE_API_BASE_URL sample_env = Some []).
Proof.
  apply (C9_config_check_before_io sample_env None []).
  left. reflexivity.
Defined.


(** ** Slices and batches *)

Lemma firstn_skipn_add {A} (l : list A) (a b : nat) :
  firstn a l ++ firstn b (skipn a l) = firstn (a + b) l.
Proof.
  revert l. induction a as [|a IH]; intros l; [reflexivity|].
  destruct l as [|x l]; simpl.
  - rewrite firstn_nil. reflexivity.
  - rewrite IH. reflexivity.
Qed.

Lemma firstn_min_length {A} (l : list A) (n : nat) :
  firstn (Nat.min n (List.length l)) l = firstn n l.
Proof.
  destruct (Nat.le_gt_cases n (List.length l)) as [H|H].
  - rewrite Nat.min_l by lia. reflexivity.
  - rewrite Nat.min_r by lia. rewrite !firstn_all2 by lia. reflexivity.
Qed.

(** The slice the batch loop takes is the next batch_size rows. *)
Lemma py_slice_chunk {A} (rows : list A) (i : nat) (batch_size : Z) :
  0 < batch_size ->
  py_slice rows (Z.of_nat i * batch_size) (Z.of_nat i * batch_size + batch_size)
  = firstn (Z.to_nat batch_size) (skipn (i * Z.to_nat batch_size) rows).
Proof.
  intros HB. unfold py_slice, slice_index, len.
  set (n := List.length rows).
  replace (Z.of_nat i * batch_size <? 0) with false by (symmetry; apply Z.ltb_ge; nia).
  replace (Z.of_nat i * batch_size + batch_size <? 0) with false
    by (symmetry; apply Z.ltb_ge; nia).
  assert (Hi : Z.to_nat (Z.of_nat i * batch_size) = (i * Z.to_nat batch_size)%nat) by nia.
  destruct (Z_le_gt_dec (Z.of_nat i * batch_size) (Z.of_nat n)) as [Hle|Hgt].
  - rewrite (Z.min_l (Z.of_nat i * batch_size)) by lia. rewrite Hi.
    rewrite <- (firstn_min_length (skipn _ rows) (Z.to_nat batch_size)).
    f_equal. rewrite length_skipn. fold n. lia.
  - rewrite !Z.min_r by lia. rewrite Z.sub_diag. simpl firstn.
    rewrite (skipn_all2 rows) by (fold n; lia).
    rewrite firstn_nil. reflexivity.
Qed.

Lemma concat_chunks {A} (rows : list A) (b k : nat) :
  concat (map (fun i => firstn b (skipn (i * b) rows)) (seq 0 k))
  = firstn (k * b) rows.
Proof.
  induction k as [|k IH]; [reflexivity|].
  rewrite seq_S, map_app, concat_app, IH. simpl.
  rewrite app_nil_r, firstn_skipn_add. f_equal. lia.
Qed.

Lemma py_range_0 (n : Z) : py_range 0 n = map Z.of_nat (seq 0 (Z.to_nat n)).
Proof. unfold py_range. rewrite Z.sub_0_r. reflexivity. Qed.

Lemma in_py_range (lo hi p : Z) : In p (py_range lo hi) <-> lo <= p < hi.
Proof.
  unfold py_range. rewrite in_map_iff. split.
  - intros (i & <- & Hi). apply in_seq in Hi. lia.
  - intros H. exists (Z.to_nat (p - lo)). split; [lia|]. apply in_seq. lia.
Qed.

Lemma upserts_of_app (a b : trace) :
  upserts_of (a ++ b) = upserts_of a ++ upserts_of b.
Proof.
  induction a as [|e a IH]; [reflexivity|].
  destruct e; simpl; rewrite IH; reflexivity.
Qed.

Section Batcher.

Variable env : environment.
Hypothesis store_accepts : forall tr t b, store_upsert env tr t b = Ok tt.

Lemma upsert_batches_ok (rows : list dict) (table_name : pystr)
      (batch_size batches : Z) (indices : list Z) (tr : trace) :
  exists tr',
    upsert_batches env rows table_name batch_size batches indices tr = (Ok tt, tr') /\
    upserts_of tr'
    = upserts_of tr ++
      map (fun i => (table_name,
                     py_slice rows (i * batch_size) (i * batch_size + batch_size)))
          indices.
Proof.
  revert tr. induction indices as [|i indices IH]; intros tr.
  - exists tr. split; [reflexivity|]. simpl. rewrite app_nil_r. reflexivity.
  - simpl. unfold bind, emit, call. rewrite store_accepts.
    destruct (IH ((tr ++ [EvPrint (MsgBatch (i + 1) batches
                  (len (py_slice rows (i * batch_size) (i * batch_size + batch_size))))])
                  ++ [EvUpsert table_name
                        (py_slice rows (i * batch_size) (i * batch_size + batch_size))]))
      as (tr' & Hrun & Hups).
    exists tr'. split; [exact Hrun|].
    rewrite Hups, !upserts_of_app. simpl. rewrite app_nil_r, <- app_assoc.
    reflexivity.
Qed.

End Batcher.

(** C7. With a store that accepts every batch, a batch size B > 0 and
    N rows (both below 2^53), upsert_to_supabase issues ceil(N/B) upsert
    calls; the batches are the consecutive slices of B rows, their
    concatenation is the input, every batch is non-empty with at most B
    rows and all but the last have exactly B; for an empty input no upsert
    call is made. *)
Theorem C7_batch_partition
        (env : environment) (rows : list dict) (table_name : pystr)
        (batch_size : Z) (tr : trace) :
  (forall tr, supabase_client env tr = Ok tt) ->
  (forall tr t b, store_upsert env tr t b = Ok tt) ->
  0 < batch_size < 2 ^ 1022 ->
  len rows < 2 ^ 53 ->
  exists batches tr',
    upsert_to_supabase env rows table_name batch_size tr = (Ok tt, tr') /\
    upserts_of tr' = upserts_of tr ++ map (fun b => (table_name, b)) batches /\
    len batches = ceil_div (len rows) batch_size /\
    (len batches - 1) * batch_size < len rows <= len batches * batch_size /\
    concat batches = rows /\
    (forall i b,
        nth_error batches i = Some b ->
        b = firstn (Z.to_nat batch_size) (skipn (i * Z.to_nat batch_size) rows) /\
        0 < len b <= batch_size /\
        ((S i < List.length batches)%nat -> len b = batch_size)) /\
    (rows = [] -> batches = []).
Proof.
  intros Hclient Hstore HB HN.
  unfold upsert_to_supabase, bind, call. rewrite Hclient.
  destruct (len rows =? 0) eqn:Hlen.
  - apply Z.eqb_eq in Hlen.
    assert (Hrows : rows = []) by (destruct rows; [reflexivity|discriminate]).
    subst rows. exists [], ((tr ++ [EvClient]) ++ [EvPrint MsgNoRows]).
    split; [reflexivity|]. split.
    { rewrite !upserts_of_app. simpl. rewrite !app_nil_r. reflexivity. }
    split; [reflexivity|]. split.
    { change (len (@nil (list dict))) with 0. change (len (@nil dict)) with 0. lia. }
    split; [reflexivity|]. split; [|reflexivity].
    intros [|i] b Hnth; discriminate.
  - apply Z.eqb_neq in Hlen.
    assert (Hpos : 0 < len rows) by (unfold len in *; lia).
    unfold lift.
    change (ebind (int_true_div (len rows) batch_size) (fun q => math_ceil q))
      with (ebind (int_true_div (len rows) batch_size) math_ceil).
    rewrite (true_div_ceil_exact (len rows) batch_size) by lia.
    pose proof (ceil_div_spec (len rows) batch_size ltac:(lia)) as Hceil.
    set (n := ceil_div (len rows) batch_size) in *.
    assert (Hn : 0 < n) by nia.
    destruct (upsert_batches_ok env Hstore rows table_name batch_size n
                                (py_range 0 n) (tr ++ [EvClient]))
      as (tr' & Hrun & Hups).
    rewrite Hrun. unfold emit.
    set (b := Z.to_nat batch_size).
    set (k := Z.to_nat n).
    exists (map (fun i => firstn b (skipn (i * b) rows)) (seq 0 k)),
           (tr' ++ [EvPrint (MsgUpsertDone (len rows))]).
    assert (Hlenb : len (map (fun i => firstn b (skipn (i * b) rows)) (seq 0 k)) = n).
    { unfold len. rewrite length_map, length_seq. unfold k. lia. }
    split; [reflexivity|]. split.
    { rewrite upserts_of_app, Hups, upserts_of_app. simpl.
      rewrite !app_nil_r. f_equal.
      rewrite py_range_0, !map_map. apply map_ext. intros i.
      f_equal. apply py_slice_chunk. lia. }
    split; [exact Hlenb|]. split; [rewrite Hlenb; exact Hceil|].
    split.
    { rewrite concat_chunks. apply firstn_all2. unfold len in *. unfold k, b. nia. }
    split; [|intros ->; discriminate].
    intros i x Hnth.
    rewrite nth_error_map in Hnth.
    destruct (nth_error (seq 0 k) i) as [j|] eqn:Hj; [|discriminate].
    assert (Hi : (i < k)%nat).
    { assert (Hs : nth_error (seq 0 k) i <> None) by congruence.
      apply nth_error_Some in Hs. rewrite length_seq in Hs. exact Hs. }
    assert (j = i).
    { apply nth_error_nth with (d := 0%nat) in Hj.
      rewrite seq_nth in Hj by exact Hi. lia. }
    subst j. simpl in Hnth. injection Hnth as <-.
    split; [reflexivity|].
    assert (Hx : List.length (firstn b (skipn (i * b) rows))
                 = Nat.min b (List.length rows - i * b)).
    { rewrite length_firstn, length_skipn. reflexivity. }
    unfold len in *. rewrite Hx. rewrite length_map, length_seq.
    split; [unfold b, k in *; nia|].
    intros Hlt. unfold b, k in *. nia.
Qed.


(** ** Unwrapping and accumulation *)

Lemma append_items_spec (all_items items : list value) :
  append_items all_items items = all_items ++ map unwrap_item items.
Proof.
  unfold append_items. revert all_items.
  induction items as [|w items IH]; intros all_items; simpl.
  - rewrite app_nil_r. reflexivity.
  - rewrite IH, <- app_assoc. reflexivity.
Qed.

Section Accumulation.

Variable env : environment.
Variable resp : request -> value.
Hypothesis server_answers : forall tr r, http_get env tr r = Ok (resp r).

Variables (base_url : pystr) (num_of_rows : Z) (service_key : option pystr).
Variable items_of : Z -> list value.

Lemma collect_pages_ok (total_pages : Z) (pages : list Z)
      (all_items : list value) (tr : trace) :
  (forall p, In p pages ->
             page_items (resp (page_request env base_url service_key p num_of_rows))
             = Ok (VList (items_of p))) ->
  fst (collect_pages env base_url num_of_rows
                     (py_or service_key (MIXTURE_API_SERVICE_KEY env))
                     total_pages pages all_items tr)
  = Ok (all_items ++ flat_map (fun p => map unwrap_item (items_of p)) pages).
Proof.
  revert all_items tr.
  induction pages as [|p pages IH]; intros all_items tr Hpages.
  - simpl. rewrite app_nil_r. reflexivity.
  - simpl. unfold bind at 1. unfold fetch_page, call.
    fold (page_request env base_url service_key p num_of_rows).
    rewrite server_answers.
    pose proof (Hpages p (or_introl eq_refl)) as Hp.
    unfold page_items in Hp.
    unfold bind at 1. unfold lift at 1.
    destruct (py_get (resp (page_request env base_url service_key p num_of_rows))
                     (str "body") (VDict [])) as [body|e]; [|discriminate].
    simpl in Hp.
    unfold bind at 1. unfold lift at 1. rewrite Hp.
    unfold bind at 1. unfold lift at 1. cbn [py_iter].
    rewrite append_items_spec.
    unfold bind at 1.
    destruct ((p mod 10 =? 0) || (p =? total_pages)).
    + unfold emit at 1. unfold bind at 1. unfold emit at 1.
      rewrite IH by (intros q Hq; apply Hpages; right; exact Hq).
      rewrite <- app_assoc. reflexivity.
    + unfold ret at 1. unfold bind at 1. unfold emit at 1.
      rewrite IH by (intros q Hq; apply Hpages; right; exact Hq).
      rewrite <- app_assoc. reflexivity.
Qed.

End Accumulation.

(** C5, as the code has it.  An element {"item": X} yields X (so does any
    dict that has an "item" key, whatever else it holds); an element that
    is not a dict with an "item" key is kept as it is; hence a record X
    that has no "item" field of its own normalises the same wrapped or
    bare.  When every page p of 1..totalPages answers with the list
    items_of p, the collector returns the unwrapped elements of page 1,
    then of page 2, and so on, each page in its own order. *)
Theorem C5_item_unwrapping
        (I : interpreter) (env : environment) (resp : request -> value)
        (base_url : pystr) (num_of_rows : Z) (service_key : option pystr)
        (label : pystr) (items_of : Z -> list value) (total_pages : Z)
        (tr : trace) :
  (forall tr r, http_get env tr r = Ok (resp r)) ->
  probe_pages (resp (page_request env base_url service_key 1 1)) num_of_rows
  = Ok total_pages ->
  (forall p, 1 <= p <= total_pages ->
             page_items (resp (page_request env base_url service_key p num_of_rows))
             = Ok (VList (items_of p))) ->
  (forall X, unwrap_item (VDict [(str "item", X)]) = X) /\
  (forall d X, dict_get d (str "item") = Some X -> unwrap_item (VDict d) = X) /\
  (forall w, (forall d, w = VDict d -> dict_get d (str "item") = None) ->
             unwrap_item w = w) /\
  (forall X : dict,
      dict_get X (str "item") = None ->
      clean_record (unwrap_item (VDict [(str "item", VDict X)]))
      = clean_record (unwrap_item (VDict X))) /\
  fst (fetch_all_from_api env base_url num_of_rows service_key label tr)
  = Ok (flat_map (fun p => map unwrap_item (items_of p))
                 (py_range 1 (total_pages + 1))).
Proof.
  intros Hserver Hprobe Hpages.
  assert (Hkeep : forall w, (forall d, w = VDict d -> dict_get d (str "item") = None) ->
                            unwrap_item w = w).
  { intros w Hw. destruct w; try reflexivity.
    simpl. rewrite (Hw d eq_refl). reflexivity. }
  split; [reflexivity|]. split.
  { intros d X Hd. simpl. rewrite Hd. reflexivity. }
  split; [exact Hkeep|]. split.
  { intros X HX. rewrite (Hkeep (VDict X)); [reflexivity|].
    intros d Hd. injection Hd as <-. exact HX. }
  unfold fetch_all_from_api.
  unfold bind at 1. unfold fetch_page, call.
  fold (page_request env base_url service_key 1 1).
  rewrite Hserver. unfold probe_pages in Hprobe.
  unfold bind at 1. unfold lift at 1.
  destruct (py_get (resp (page_request env base_url service_key 1 1))
                   (str "body") (VDict [])) as [body|e]; [|discriminate].
  simpl in Hprobe.
  unfold bind at 1. unfold lift at 1.
  destruct (py_get body (str "totalCount") (VInt 0)) as [total_count|e];
    [|discriminate].
  simpl in Hprobe.
  unfold bind at 1. unfold lift at 1. rewrite Hprobe.
  unfold bind at 1. unfold emit at 1.
  unfold bind at 1.
  pose proof (collect_pages_ok env resp Hserver base_url num_of_rows service_key
                items_of total_pages (py_range 1 (total_pages + 1)) []
                ((tr ++ [EvRequest (page_request env base_url service_key 1 1)])
                   ++ [EvPrint (MsgCollectStart label total_count total_pages)]))
    as Hloop.
  destruct (collect_pages env base_url num_of_rows
              (py_or service_key (MIXTURE_API_SERVICE_KEY env)) total_pages
              (py_range 1 (total_pages + 1)) [] _) as [[all_items|e] tr'].
  - simpl in Hloop. unfold bind, emit, ret. simpl. apply Hloop.
    intros p Hp. apply in_py_range in Hp. apply Hpages. lia.
  - simpl in Hloop. simpl. apply Hloop.
    intros p Hp. apply in_py_range in Hp. apply Hpages. lia.
Qed.

Lemma C5_item_unwrapping_witness :
  fst (fetch_all_from_api sample_env (str "http://api") 1 None MIXTURE_LABEL [])
  = Ok (flat_map (fun p => map unwrap_item
                             [ VDict [ (str "item", VDict [ (str "mix", VStr (str "A")) ]) ];
                               VDict [ (str "MIX", VStr (str "B")) ] ])
                 (py_range 1 (2 + 1))).
Proof.
  apply (C5_item_unwrapping ascii_interpreter sample_env
           (fun _ => sample_page) (str "http://api") 1 None MIXTURE_LABEL
           (fun _ => [ VDict [ (str "item", VDict [ (str "mix", VStr (str "A")) ]) ];
                       VDict [ (str "MIX", VStr (str "B")) ] ])
           2 []).
  - reflexivity.
  - reflexivity.
  - reflexivity.
Defined.

(** C5 as stated fails for a record that has a field named "item": in an
    envelope it comes out whole, but delivered bare it is itself taken for
    an envelope and replaced by the value of that field, so the two
    deliveries normalise differently. *)
Lemma C5_record_with_item_field :
  unwrap_item (VDict [(str "item", record_with_item_field)]) = record_with_item_field /\
  unwrap_item record_with_item_field = VStr (str "x") /\
  (out <- clean_record (I := ascii_interpreter)
            (unwrap_item (VDict [(str "item", record_with_item_field)])) ;;
   Ok (dict_get out (str "TYPE_NAME")))%except = Ok (Some (VStr (str "a"))) /\
  (out <- clean_record (I := ascii_interpreter)
            (unwrap_item record_with_item_field) ;;
   Ok (dict_get out (str "TYPE_NAME")))%except = Ok (Some (VStr [])) /\
  clean_record (I := ascii_interpreter)
    (unwrap_item (VDict [(str "item", record_with_item_field)]))
  <> clean_record (I := ascii_interpreter) (unwrap_item record_with_item_field).
Proof.
  repeat split; try reflexivity.
  intros H. vm_compute in H. discriminate.
Qed.

Lemma C7_batch_partition_witness :
  exists batches tr',
    upsert_to_supabase sample_env three_rows (str "mixtures") 2 [] = (Ok tt, tr') /\
    upserts_of tr' = upserts_of [] ++ map (fun b => (str "mixtures", b)) batches /\
    len batches = ceil_div (len three_rows) 2 /\
    (len batches - 1) * 2 < len three_rows <= len batches * 2 /\
    concat batches = three_rows /\
    (forall i b,
        nth_error batches i = Some b ->
        b = firstn (Z.to_nat 2) (skipn (i * Z.to_nat 2) three_rows) /\
        0 < len b <= 2 /\
        ((S i < List.length batches)%nat -> len b = 2)) /\
    (three_rows = [] -> batches = []).
Proof.
  apply (C7_batch_partition sample_env three_rows (str "mixtures") 2 []).
  - reflexivity.
  - reflexivity.
  - split; reflexivity.
  - reflexivity.
Defined.

(** Outside the theorem's range: a batch size of 0 raises, and a negative
    one issues no upsert at all. *)
Example batch_size_zero_raises :
  fst (upsert_to_supabase sample_env three_rows (str "mixtures") 0 [])
  = Raise ZeroDivisionError.
Proof. reflexivity. Qed.

Example negative_batch_size_writes_nothing :
  upsert_to_supabase sample_env three_rows (str "mixtures") (-2) []
  = (Ok tt, [EvClient; EvPrint (MsgUpsertDone 3)]).
Proof. vm_compute. reflexivity. Qed.

(** The sizes of the specification's example: 1201 rows in batches of 500. *)
Example batch_sizes_1201_500 :
  map (fun tb => len (snd tb))
      (upserts_of (snd (upsert_to_supabase sample_env (repeat [] 1201)
                                           (str "mixtures") 500 [])))
  = [500; 500; 201].
Proof. vm_compute. reflexivity. Qed.

(** Three pages of sizes 2, 2 and 1 announced as totalCount = 5 with page
    size 2 are collected in page order, the envelopes removed. *)
Example five_records_three_pages :
  fst (fetch_all_from_api five_env (str "http://api") 2 None MIXTURE_LABEL [])
  = Ok [ VStr (str "r1"); VStr (str "r2"); VStr (str "r3"); VStr (str "r4");
         VStr (str "r5") ].
Proof. vm_compute. reflexivity. Qed.

(** * Further properties *)

(** ** Kinds of effects *)

Lemma adds_only_ret {A} (P : event -> Prop) (a : A) : adds_only P (ret a).
Proof. intros tr. exists []. rewrite app_nil_r. split; [reflexivity|constructor]. Qed.

Lemma adds_only_raise {A} (P : event -> Prop) (e : exn) :
  adds_only P (@raise A e).
Proof. intros tr. exists []. rewrite app_nil_r. split; [reflexivity|constructor]. Qed.

Lemma adds_only_lift {A} (P : event -> Prop) (x : except A) :
  adds_only P (lift x).
Proof. intros tr. exists []. rewrite app_nil_r. split; [reflexivity|constructor]. Qed.

Lemma adds_only_emit (P : event -> Prop) (ev : event) :
  P ev -> adds_only P (emit ev).
Proof. intros H tr. exists [ev]. split; [reflexivity|]. repeat constructor. exact H. Qed.

Lemma adds_only_call {A} (P : event -> Prop) (ev : event)
      (outcome : trace -> except A) :
  P ev -> adds_only P (call ev outcome).
Proof. intros H tr. exists [ev]. split; [reflexivity|]. repeat constructor. exact H. Qed.

Lemma adds_only_bind {A B} (P : event -> Prop) (c : M A) (k : A -> M B) :
  adds_only P c -> (forall a, adds_only P (k a)) -> adds_only P (bind c k).
Proof.
  intros Hc Hk tr. unfold bind.
  destruct (Hc tr) as (new1 & H1 & HP1).
  destruct (c tr) as [[a|e] tr1]; simpl in H1; subst tr1.
  - destruct (Hk a (tr ++ new1)) as (new2 & H2 & HP2).
    exists (new1 ++ new2). rewrite H2, app_assoc. split; [reflexivity|].
    apply Forall_app. split; assumption.
  - exists new1. split; [reflexivity|exact HP1].
Qed.

Lemma adds_only_weaken {A} (P Q : event -> Prop) (c : M A) :
  (forall ev, P ev -> Q ev) -> adds_only P c -> adds_only Q c.
Proof.
  intros HPQ Hc tr. destruct (Hc tr) as (new & H & HP).
  exists new. split; [exact H|]. eapply Forall_impl; eassumption.
Qed.

Ltac adds_only_step :=
  first [ apply adds_only_ret | apply adds_only_raise | apply adds_only_lift
        | apply adds_only_emit; exact I | apply adds_only_call; exact I
        | apply adds_only_bind; [|intros ?] ].

Lemma fetch_page_adds (env : environment) (base_url : pystr)
      (page_no num_of_rows : Z) (service_key : option pystr) :
  adds_only collector_event (fetch_page env base_url page_no num_of_rows service_key).
Proof. unfold fetch_page. apply adds_only_call. exact I. Qed.

Lemma collect_pages_adds (env : environment) (base_url : pystr) (num_of_rows : Z)
      (service_key : option pystr) (total_pages : Z) (pages : list Z)
      (all_items : list value) :
  adds_only collector_event
            (collect_pages env base_url num_of_rows service_key total_pages
                           pages all_items).
Proof.
  revert all_items. induction pages as [|p pages IH]; intros all_items; simpl.
  - apply adds_only_ret.
  - apply adds_only_bind; [apply fetch_page_adds|intros data].
    repeat (apply adds_only_bind; [apply adds_only_lift|intros ?]).
    apply adds_only_bind.
    + destruct (_ || _); adds_only_step.
    + intros _. apply adds_only_bind; [adds_only_step|intros _]. apply IH.
Qed.

Lemma fetch_all_from_api_adds (env : environment) (base_url : pystr)
      (num_of_rows : Z) (service_key : option pystr) (label : pystr) :
  adds_only collector_event
            (fetch_all_from_api env base_url num_of_rows service_key label).
Proof.
  unfold fetch_all_from_api.
  apply adds_only_bind; [apply fetch_page_adds|intros first_page].
  repeat (apply adds_only_bind; [apply adds_only_lift|intros ?]).
  apply adds_only_bind; [adds_only_step|intros _].
  apply adds_only_bind; [apply collect_pages_adds|intros all_items].
  apply adds_only_bind; [adds_only_step|intros _]. apply adds_only_ret.
Qed.

Lemma upsert_batches_adds (env : environment) (rows : list dict)
      (table_name : pystr) (batch_size batches : Z) (indices : list Z) :
  adds_only writer_event
            (upsert_batches env rows table_name batch_size batches indices).
Proof.
  induction indices as [|i indices IH]; simpl.
  - apply adds_only_ret.
  - apply adds_only_bind; [adds_only_step|intros _].
    apply adds_only_bind; [adds_only_step|intros _]. exact IH.
Qed.

Lemma upsert_to_supabase_adds (env : environment) (rows : list dict)
      (table_name : pystr) (batch_size : Z) :
  adds_only writer_event (upsert_to_supabase env rows table_name batch_size).
Proof.
  unfold upsert_to_supabase.
  apply adds_only_bind; [adds_only_step|intros _].
  destruct (len rows =? 0); [adds_only_step|].
  apply adds_only_bind; [apply adds_only_lift|intros batches].
  apply adds_only_bind; [apply upsert_batches_adds|intros _].
  adds_only_step.
Qed.

Lemma fetch_mixture_data_adds (env : environment) (save_path : option pystr) :
  adds_only snapshot_event (fetch_mixture_data env save_path).
Proof.
  unfold fetch_mixture_data.
  destruct (MIXTURE_API_BASE_URL env) as [[|c url]|]; try apply adds_only_raise.
  destruct (MIXTURE_API_SERVICE_KEY env) as [[|c' key]|]; try apply adds_only_raise.
  apply adds_only_bind.
  - apply (adds_only_weaken collector_event); [|apply fetch_all_from_api_adds].
    intros [ | | | | | ]; simpl; tauto.
  - intros items. apply adds_only_bind; [|intros _; apply adds_only_ret].
    destruct save_path as [[|c0 p]|]; try apply adds_only_ret.
    apply adds_only_bind.
    + destruct (os_path_dirname env (c0 :: p)); adds_only_step.
    + intros _. apply adds_only_bind; [adds_only_step|intros _]. adds_only_step.
Qed.

(** What a kind of events leaves untouched. *)
Lemma requests_of_app (a b : trace) :
  requests_of (a ++ b) = requests_of a ++ requests_of b.
Proof.
  induction a as [|e a IH]; [reflexivity|].
  destruct e; simpl; rewrite IH; reflexivity.
Qed.

Lemma fs_ops_of_app (a b : trace) :
  fs_ops_of (a ++ b) = fs_ops_of a ++ fs_ops_of b.
Proof.
  induction a as [|e a IH]; [reflexivity|].
  destruct e; simpl; rewrite IH; reflexivity.
Qed.

Lemma sleeps_of_app (a b : trace) :
  sleeps_of (a ++ b) = (sleeps_of a + sleeps_of b)%nat.
Proof.
  induction a as [|e a IH]; [reflexivity|].
  destruct e; simpl; rewrite IH; reflexivity.
Qed.

Lemma clients_of_app (a b : trace) :
  clients_of (a ++ b) = (clients_of a + clients_of b)%nat.
Proof.
  induction a as [|e a IH]; [reflexivity|].
  destruct e; simpl; rewrite IH; reflexivity.
Qed.

Lemma collector_events_quiet (new : trace) :
  Forall collector_event new ->
  upserts_of new = [] /\ fs_ops_of new = [] /\ clients_of new = 0%nat.
Proof.
  induction 1 as [|ev new Hev _ IH]; [repeat split|].
  destruct ev; simpl in *; try contradiction; exact IH.
Qed.

Lemma snapshot_events_quiet (new : trace) :
  Forall snapshot_event new -> upserts_of new = [] /\ clients_of new = 0%nat.
Proof.
  induction 1 as [|ev new Hev _ IH]; [repeat split|].
  destruct ev; simpl in *; try contradiction; exact IH.
Qed.

Lemma writer_events_quiet (new : trace) :
  Forall writer_event new ->
  requests_of new = [] /\ fs_ops_of new = [] /\ sleeps_of new = 0%nat.
Proof.
  induction 1 as [|ev new Hev _ IH]; [repeat split|].
  destruct ev; simpl in *; try contradiction; exact IH.
Qed.

(** ** The collector under a server that may fail *)

(** X1. Whatever the server answers, and whether it returns or raises,
    fetch_all_from_api keeps the history and adds only requests, sleeps
    and prints: it never creates a store client, never upserts and never
    touches the file system. *)
Theorem collector_never_writes
        (env : environment) (base_url : pystr) (num_of_rows : Z)
        (service_key : option pystr) (label : pystr) (tr : trace) :
  exists new,
    snd (fetch_all_from_api env base_url num_of_rows service_key label tr)
    = tr ++ new /\
    Forall collector_event new /\
    upserts_of (tr ++ new) = upserts_of tr /\
    fs_ops_of (tr ++ new) = fs_ops_of tr /\
    clients_of (tr ++ new) = clients_of tr.
Proof.
  destruct (fetch_all_from_api_adds env base_url num_of_rows service_key label tr)
    as (new & Hnew & HP).
  exists new. split; [exact Hnew|]. split; [exact HP|].
  destruct (collector_events_quiet new HP) as (Hu & Hf & Hc).
  rewrite upserts_of_app, fs_ops_of_app, clients_of_app, Hu, Hf, Hc.
  rewrite !app_nil_r, Nat.add_0_r. repeat split.
Qed.

(** X2. For every environment, rows, table and batch size (zero and
    negative ones included), upsert_to_supabase keeps the history and adds
    only the creation of the store client, upserts to the store and
    prints: it sends no request to the source API (the requests.get of
    fetch_page), never sleeps and never touches the file system.  Its
    traffic to the hosted store, the upserts, is not excluded. *)
Theorem writer_never_fetches
        (env : environment) (rows : list dict) (table_name : pystr)
        (batch_size : Z) (tr : trace) :
  exists new,
    snd (upsert_to_supabase env rows table_name batch_size tr) = tr ++ new /\
    Forall writer_event new /\
    requests_of (tr ++ new) = requests_of tr /\
    fs_ops_of (tr ++ new) = fs_ops_of tr /\
    sleeps_of (tr ++ new) = sleeps_of tr.
Proof.
  destruct (upsert_to_supabase_adds env rows table_name batch_size tr)
    as (new & Hnew & HP).
  exists new. split; [exact Hnew|]. split; [exact HP|].
  destruct (writer_events_quiet new HP) as (Hr & Hf & Hs).
  rewrite requests_of_app, fs_ops_of_app, sleeps_of_app, Hr, Hf, Hs.
  rewrite !app_nil_r, Nat.add_0_r. repeat split.
Qed.

Lemma py_or_fallback_twice (a b : option pystr) :
  py_or (py_or a b) b = py_or a b.
Proof. destruct a as [[|c s]|]; simpl; try reflexivity; destruct b as [[|c s]|]; reflexivity. Qed.

Lemma py_range_nil (lo hi : Z) : hi <= lo -> py_range lo hi = [].
Proof. intros H. unfold py_range. replace (Z.to_nat (hi - lo)) with 0%nat by lia. reflexivity. Qed.

Lemma map_seq_from {A} (f : nat -> A) (s n : nat) :
  map f (seq s n) = map (fun i => f (s + i)%nat) (seq 0 n).
Proof.
  revert f s. induction n as [|n IH]; intros f s; [reflexivity|].
  simpl. rewrite Nat.add_0_r. f_equal.
  rewrite (IH f (S s)), (IH (fun i => f (s + i)%nat) 1%nat).
  apply map_ext. intros i. f_equal. lia.
Qed.

Lemma py_range_split (lo mid hi : Z) :
  lo <= mid <= hi -> py_range lo hi = py_range lo mid ++ py_range mid hi.
Proof.
  intros H. unfold py_range.
  replace (Z.to_nat (hi - lo)) with (Z.to_nat (mid - lo) + Z.to_nat (hi - mid))%nat by lia.
  rewrite seq_app, map_app. f_equal.
  rewrite map_seq_from. apply map_ext. intros i. lia.
Qed.

Lemma py_range_cons (lo hi : Z) :
  lo < hi -> py_range lo hi = lo :: py_range (lo + 1) hi.
Proof.
  intros H. rewrite (py_range_split lo (lo + 1) hi) by lia.
  unfold py_range at 1. replace (Z.to_nat (lo + 1 - lo)) with 1%nat by lia.
  simpl. rewrite Z.add_0_r. reflexivity.
Qed.

Lemma length_py_range (lo hi : Z) :
  List.length (py_range lo hi) = Z.to_nat (hi - lo).
Proof. unfold py_range. rewrite length_map, length_seq. reflexivity. Qed.

Section FallibleServer.

Variable env : environment.
Variable resp : request -> except value.
Hypothesis server_answers : forall tr r, http_get env tr r = resp r.

Variables (base_url : pystr) (num_of_rows : Z) (service_key : option pystr).

Let req (p : Z) : request :=
  page_request env base_url service_key p num_of_rows.

(** One round of the page loop: the request, then either the error of the
    fetch or of the page's shape, or the progress line, the sleep and the
    rest of the loop. *)
Lemma collect_pages_step (total_pages p : Z) (pages : list Z)
      (all_items : list value) (tr : trace) :
  collect_pages env base_url num_of_rows
                (py_or service_key (MIXTURE_API_SERVICE_KEY env))
                total_pages (p :: pages) all_items tr
  = match (data <- resp (req p) ;; page_elems data)%except with
    | Raise e => (Raise e, tr ++ [EvRequest (req p)])
    | Ok elems =>
        collect_pages env base_url num_of_rows
                      (py_or service_key (MIXTURE_API_SERVICE_KEY env))
                      total_pages pages (all_items ++ map unwrap_item elems)
                      (tr ++ EvRequest (req p)
                          :: (if (p mod 10 =? 0) || (p =? total_pages)
                              then [EvPrint (MsgPage p total_pages
                                               (len (all_items ++ map unwrap_item elems)))]
                              else [])
                          ++ [EvSleep])
    end.
Proof.
  simpl. unfold bind at 1. unfold fetch_page, call.
  fold (page_request env base_url service_key p num_of_rows). fold (req p).
  rewrite server_answers.
  destruct (resp (req p)) as [data|e]; [|reflexivity].
  unfold page_elems, page_items. simpl ebind.
  unfold bind at 1. unfold lift at 1.
  destruct (py_get data (str "body") (VDict [])) as [body|e]; [|reflexivity].
  simpl ebind. unfold bind at 1. unfold lift at 1.
  destruct (py_get body (str "items") (VList [])) as [items|e]; [|reflexivity].
  simpl ebind. unfold bind at 1. unfold lift at 1.
  destruct (py_iter items) as [elems|e]; [|reflexivity].
  rewrite append_items_spec. unfold bind at 1.
  destruct ((p mod 10 =? 0) || (p =? total_pages)).
  - unfold emit at 1. unfold bind at 1. unfold emit at 1.
    f_equal. rewrite <- !app_assoc. reflexivity.
  - unfold ret at 1. unfold bind at 1. unfold emit at 1.
    f_equal. rewrite <- !app_assoc. reflexivity.
Qed.

Lemma collect_pages_all (elems : Z -> list value) (total_pages : Z)
      (pages : list Z) (all_items : list value) (tr : trace) :
  (forall p, In p pages ->
             (data <- resp (req p) ;; page_elems data)%except = Ok (elems p)) ->
  exists tr',
    collect_pages env base_url num_of_rows
                  (py_or service_key (MIXTURE_API_SERVICE_KEY env))
                  total_pages pages all_items tr
    = (Ok (all_items ++ flat_map (fun p => map unwrap_item (elems p)) pages), tr') /\
    requests_of tr' = requests_of tr ++ map req pages /\
    sleeps_of tr' = (sleeps_of tr + List.length pages)%nat.
Proof.
  revert all_items tr. induction pages as [|p pages IH]; intros all_items tr Hp.
  - exists tr. simpl. rewrite !app_nil_r, Nat.add_0_r. repeat split.
  - rewrite collect_pages_step, (Hp p (or_introl eq_refl)).
    edestruct IH as (tr' & Hrun & Hreq & Hsl);
      [intros q Hq; apply Hp; right; exact Hq|].
    exists tr'. split; [rewrite Hrun; simpl; rewrite <- app_assoc; reflexivity|].
    rewrite Hreq, Hsl, requests_of_app, sleeps_of_app. simpl.
    destruct (_ || _); simpl; rewrite <- ?app_assoc; split; try reflexivity; lia.
Qed.

Lemma collect_pages_abort (elems : Z -> list value) (total_pages : Z)
      (before : list Z) (k : Z) (after : list Z) (e : exn)
      (all_items : list value) (tr : trace) :
  (forall p, In p before ->
             (data <- resp (req p) ;; page_elems data)%except = Ok (elems p)) ->
  (data <- resp (req k) ;; page_elems data)%except = Raise e ->
  exists tr',
    collect_pages env base_url num_of_rows
                  (py_or service_key (MIXTURE_API_SERVICE_KEY env))
                  total_pages (before ++ k :: after) all_items tr
    = (Raise e, tr') /\
    requests_of tr' = requests_of tr ++ map req (before ++ [k]) /\
    sleeps_of tr' = (sleeps_of tr + List.length before)%nat.
Proof.
  revert all_items tr. induction before as [|p before IH]; intros all_items tr Hp Hk.
  - simpl app. rewrite collect_pages_step, Hk.
    eexists. split; [reflexivity|].
    rewrite requests_of_app, sleeps_of_app. simpl. split; [reflexivity|lia].
  - simpl app. rewrite collect_pages_step, (Hp p (or_introl eq_refl)).
    edestruct IH as (tr' & Hrun & Hreq & Hsl);
      [intros q Hq; apply Hp; right; exact Hq|exact Hk|].
    exists tr'. split; [exact Hrun|].
    rewrite Hreq, Hsl, requests_of_app, sleeps_of_app. simpl.
    destruct (_ || _); simpl; rewrite <- ?app_assoc; split; try reflexivity; lia.
Qed.

(** The probe and what follows it. *)
Lemma fetch_all_from_api_probe (label : pystr) (tr : trace) :
  fetch_all_from_api env base_url num_of_rows service_key label tr
  = match (first_page <- resp (page_request env base_url service_key 1 1) ;;
           body <- py_get first_page (str "body") (VDict []) ;;
           total_count <- py_get body (str "totalCount") (VInt 0) ;;
           total_pages <- total_pages_of total_count num_of_rows ;;
           Ok (total_count, total_pages))%except with
    | Raise e => (Raise e, tr ++ [EvRequest (page_request env base_url service_key 1 1)])
    | Ok (total_count, total_pages) =>
        match collect_pages env base_url num_of_rows
                (py_or service_key (MIXTURE_API_SERVICE_KEY env)) total_pages
                (py_range 1 (total_pages + 1)) []
                (tr ++ [EvRequest (page_request env base_url service_key 1 1);
                        EvPrint (MsgCollectStart label total_count total_pages)]) with
        | (Ok all_items, tr') =>
            (Ok all_items, tr' ++ [EvPrint (MsgCollectDone label (len all_items))])
        | (Raise e, tr') => (Raise e, tr')
        end
    end.
Proof.
  unfold fetch_all_from_api.
  unfold bind at 1. unfold fetch_page, call.
  fold (page_request env base_url service_key 1 1).
  rewrite server_answers.
  destruct (resp (page_request env base_url service_key 1 1)) as [first_page|e];
    [|reflexivity].
  simpl ebind. unfold bind at 1. unfold lift at 1.
  destruct (py_get first_page (str "body") (VDict [])) as [body|e]; [|reflexivity].
  simpl ebind. unfold bind at 1. unfold lift at 1.
  destruct (py_get body (str "totalCount") (VInt 0)) as [total_count|e]; [|reflexivity].
  simpl ebind. unfold bind at 1. unfold lift at 1.
  destruct (total_pages_of total_count num_of_rows) as [total_pages|e]; [|reflexivity].
  simpl ebind. unfold bind at 1. unfold emit at 1. unfold bind at 1.
  rewrite <- app_assoc. simpl app.
  destruct (collect_pages _ _ _ _ _ _ _ _) as [[all_items|e] tr']; reflexivity.
Qed.

End FallibleServer.

(** X3. With a server that answers a request the same way whenever it is
    asked, a probe that leads to totalPages pages and pages 1..totalPages
    that can be iterated, fetch_all_from_api sends the probe (page 1, one
    row) and then pages 1, 2, ..., totalPages with the configured page
    size, in that order and nothing else, all to the base URL and with the
    given key or else the configured one; it sleeps once per page; and it
    returns the unwrapped elements in page order. *)
Theorem collector_request_schedule
        (env : environment) (resp : request -> except value)
        (base_url : pystr) (num_of_rows : Z) (service_key : option pystr)
        (label : pystr) (elems : Z -> list value) (total_pages : Z) (tr : trace) :
  (forall tr r, http_get env tr r = resp r) ->
  (first_page <- resp (page_request env base_url service_key 1 1) ;;
   probe_pages first_page num_of_rows)%except = Ok total_pages ->
  (forall p, 1 <= p <= total_pages ->
             (data <- resp (page_request env base_url service_key p num_of_rows) ;;
              page_elems data)%except = Ok (elems p)) ->
  exists tr',
    fetch_all_from_api env base_url num_of_rows service_key label tr
    = (Ok (flat_map (fun p => map unwrap_item (elems p))
                    (py_range 1 (total_pages + 1))), tr') /\
    requests_of tr'
    = requests_of tr ++
      map (fun pn => {| req_url := base_url;
                        serviceKey := py_or service_key (MIXTURE_API_SERVICE_KEY env);
                        pageNo := fst pn; numOfRows := snd pn |})
          ((1, 1) :: map (fun p => (p, num_of_rows)) (py_range 1 (total_pages + 1))) /\
    sleeps_of tr' = (sleeps_of tr + Z.to_nat total_pages)%nat.
Proof.
  intros Hserver Hprobe Hpages.
  rewrite (fetch_all_from_api_probe env resp Hserver).
  destruct (resp (page_request env base_url service_key 1 1)) as [first_page|e];
    [|discriminate].
  unfold probe_pages in Hprobe. simpl ebind in *.
  destruct (py_get first_page (str "body") (VDict [])) as [body|e]; [|discriminate].
  simpl ebind in *.
  destruct (py_get body (str "totalCount") (VInt 0)) as [total_count|e]; [|discriminate].
  simpl ebind in *. rewrite Hprobe. simpl ebind.
  destruct (collect_pages_all env resp Hserver base_url num_of_rows service_key
              elems total_pages (py_range 1 (total_pages + 1)) []
              (tr ++ [EvRequest (page_request env base_url service_key 1 1);
                      EvPrint (MsgCollectStart label total_count total_pages)]))
    as (tr' & Hrun & Hreq & Hsl).
  { intros p Hp. apply in_py_range in Hp. apply Hpages. lia. }
  rewrite Hrun. eexists. split; [reflexivity|].
  rewrite requests_of_app, sleeps_of_app, Hreq, Hsl, requests_of_app, sleeps_of_app.
  simpl. rewrite length_py_range, !app_nil_r, <- app_assoc, map_map.
  unfold page_request. rewrite py_or_fallback_twice. simpl.
  split; [reflexivity|].
  replace (total_pages + 1 - 1) with total_pages by lia. lia.
Qed.

Lemma collector_request_schedule_witness :
  requests_of (snd (fetch_all_from_api five_env (str "http://api") 2 None
                                       MIXTURE_LABEL []))
  = map (fun pn => {| req_url := str "http://api"; serviceKey := Some (str "key");
                      pageNo := fst pn; numOfRows := snd pn |})
        [(1, 1); (1, 2); (2, 2); (3, 2)].
Proof.
  destruct (collector_request_schedule five_env
              (fun r => Ok (five_page (pageNo r))) (str "http://api") 2 None
              MIXTURE_LABEL
              (fun p => match page_elems (five_page p) with
                        | Ok l => l
                        | Raise _ => []
                        end)
              3 [])
    as (tr' & Hrun & Hreq & _).
  - reflexivity.
  - reflexivity.
  - intros p _. reflexivity.
  - rewrite Hrun. exact Hreq.
Defined.

(** X4. No partial result.  With such a server, if pages 1..k-1 are fine
    and page k fails (the request raises, the body is not an object or the
    items cannot be iterated), fetch_all_from_api raises that error, having
    requested the probe and pages 1..k and no page after k. *)
Theorem collector_aborts_on_failing_page
        (env : environment) (resp : request -> except value)
        (base_url : pystr) (num_of_rows : Z) (service_key : option pystr)
        (label : pystr) (elems : Z -> list value) (total_pages k : Z)
        (e : exn) (tr : trace) :
  (forall tr r, http_get env tr r = resp r) ->
  (first_page <- resp (page_request env base_url service_key 1 1) ;;
   probe_pages first_page num_of_rows)%except = Ok total_pages ->
  1 <= k <= total_pages ->
  (forall p, 1 <= p < k ->
             (data <- resp (page_request env base_url service_key p num_of_rows) ;;
              page_elems data)%except = Ok (elems p)) ->
  (data <- resp (page_request env base_url service_key k num_of_rows) ;;
   page_elems data)%except = Raise e ->
  exists tr',
    fetch_all_from_api env base_url num_of_rows service_key label tr
    = (Raise e, tr') /\
    requests_of tr'
    = requests_of tr ++
      page_request env base_url service_key 1 1
      :: map (fun p => page_request env base_url service_key p num_of_rows)
             (py_range 1 (k + 1)) /\
    sleeps_of tr' = (sleeps_of tr + Z.to_nat (k - 1))%nat.
Proof.
  intros Hserver Hprobe Hk Hpages Hfail.
  rewrite (fetch_all_from_api_probe env resp Hserver).
  destruct (resp (page_request env base_url service_key 1 1)) as [first_page|e0];
    [|discriminate].
  unfold probe_pages in Hprobe. simpl ebind in *.
  destruct (py_get first_page (str "body") (VDict [])) as [body|e0]; [|discriminate].
  simpl ebind in *.
  destruct (py_get body (str "totalCount") (VInt 0)) as [total_count|e0]; [|discriminate].
  simpl ebind in *. rewrite Hprobe. simpl ebind.
  cbv beta iota.
  rewrite (py_range_split 1 k (total_pages + 1)) by lia.
  rewrite (py_range_cons k (total_pages + 1)) by lia.
  destruct (collect_pages_abort env resp Hserver base_url num_of_rows service_key
              elems total_pages (py_range 1 k) k (py_range (k + 1) (total_pages + 1))
              e []
              (tr ++ [EvRequest (page_request env base_url service_key 1 1);
                      EvPrint (MsgCollectStart label total_count total_pages)]))
    as (tr' & Hrun & Hreq & Hsl).
  { intros p Hp. apply in_py_range in Hp. apply Hpages. lia. }
  { exact Hfail. }
  rewrite Hrun. exists tr'. split; [reflexivity|].
  rewrite Hreq, Hsl, requests_of_app, sleeps_of_app. simpl.
  rewrite <- app_assoc, length_py_range. simpl.
  rewrite (py_range_split 1 k (k + 1)) by lia.
  rewrite (py_range_cons k (k + 1)), (py_range_nil (k + 1) (k + 1)) by lia.
  split; [reflexivity|lia].
Qed.

Lemma collector_aborts_on_failing_page_witness :
  exists tr',
    fetch_all_from_api third_page_fails (str "http://api") 2 None MIXTURE_LABEL []
    = (Raise (RequestError 503), tr') /\
    requests_of tr'
    = requests_of [] ++
      page_request third_page_fails (str "http://api") None 1 1
      :: map (fun p => page_request third_page_fails (str "http://api") None p 2)
             (py_range 1 (3 + 1)) /\
    sleeps_of tr' = (sleeps_of [] + Z.to_nat (3 - 1))%nat.
Proof.
  apply (collector_aborts_on_failing_page third_page_fails
           (fun r => http_get third_page_fails [] r) (str "http://api") 2 None
           MIXTURE_LABEL
           (fun p => match page_elems (five_page p) with
                     | Ok l => l
                     | Raise _ => []
                     end)
           3 3 (RequestError 503) []).
  - reflexivity.
  - reflexivity.
  - lia.
  - intros p Hp. cbn. unfold five_page. cbn.
    replace (p =? 3) with false by (symmetry; apply Z.eqb_neq; lia).
    reflexivity.
  - reflexivity.
Defined.

(** X5. If the probe fails (the request raises, the answer or its body is
    not an object, or totalCount cannot be divided), fetch_all_from_api
    raises that error after this one request; nothing is printed and no
    page is fetched. *)
Theorem collector_aborts_on_failing_probe
        (env : environment) (base_url : pystr) (num_of_rows : Z)
        (service_key : option pystr) (label : pystr) (e : exn) (tr : trace) :
  (first_page <- http_get env tr (page_request env base_url service_key 1 1) ;;
   probe_pages first_page num_of_rows)%except = Raise e ->
  fetch_all_from_api env base_url num_of_rows service_key label tr
  = (Raise e, tr ++ [EvRequest (page_request env base_url service_key 1 1)]).
Proof.
  intros Hprobe. unfold fetch_all_from_api.
  unfold bind at 1. unfold fetch_page, call.
  fold (page_request env base_url service_key 1 1).
  destruct (http_get env tr (page_request env base_url service_key 1 1))
    as [first_page|e0]; [|simpl ebind in Hprobe; cbv beta iota; injection Hprobe as ->; reflexivity].
  unfold probe_pages in Hprobe. simpl ebind in Hprobe.
  unfold bind at 1. unfold lift at 1.
  destruct (py_get first_page (str "body") (VDict [])) as [body|e0];
    [|simpl ebind in Hprobe; cbv beta iota; injection Hprobe as ->; reflexivity].
  simpl ebind in Hprobe. unfold bind at 1. unfold lift at 1.
  destruct (py_get body (str "totalCount") (VInt 0)) as [total_count|e0];
    [|simpl ebind in Hprobe; cbv beta iota; injection Hprobe as ->; reflexivity].
  simpl ebind in Hprobe. unfold bind at 1. unfold lift at 1.
  rewrite Hprobe. reflexivity.
Qed.

Lemma collector_aborts_on_failing_probe_witness :
  fetch_all_from_api
    {| MIXTURE_API_BASE_URL := None; MIXTURE_API_SERVICE_KEY := None;
       MIXTURE_API_NUM_OF_ROWS := 2;
       http_get := fun _ _ => Ok (VDict [ (str "body", VNone) ]);
       supabase_client := fun _ => Ok tt;
       store_upsert := fun _ _ _ => Ok tt;
       fs_do := fun _ _ => Ok tt;
       os_path_dirname := fun _ => [] |}
    (str "http://api") 2 (Some (str "k")) MIXTURE_LABEL []
  = (Raise AttributeError,
     [] ++ [EvRequest {| req_url := str "http://api"; serviceKey := Some (str "k");
                         pageNo := 1; numOfRows := 1 |}]).
Proof.
  apply (collector_aborts_on_failing_probe _ (str "http://api") 2 (Some (str "k"))
                                           MIXTURE_LABEL AttributeError []).
  reflexivity.
Defined.

Lemma total_pages_of_negative (total_count num_of_rows : Z) :
  - 2 ^ 53 < total_count < 0 -> 0 < num_of_rows < 2 ^ 1022 ->
  exists total_pages,
    total_pages_of (VInt total_count) num_of_rows = Ok total_pages /\
    total_pages <= 0.
Proof.
  intros Hc Hn.
  pose proof (true_div_ceil_exact (- total_count) num_of_rows ltac:(lia) Hn) as Hpos.
  pose proof (ceil_div_spec (- total_count) num_of_rows ltac:(lia)) as Hceil.
  unfold total_pages_of, py_truediv.
  replace (0 <? num_of_rows) with true by (symmetry; apply Z.ltb_lt; lia).
  unfold int_true_div in *.
  replace (num_of_rows =? 0) with false in * by (symmetry; apply Z.eqb_neq; lia).
  replace (- total_count =? 0) with false in Hpos by (symmetry; apply Z.eqb_neq; lia).
  replace (total_count =? 0) with false by (symmetry; apply Z.eqb_neq; lia).
  replace (Z.abs (- total_count)) with (Z.abs total_count) in Hpos by lia.
  destruct (binary64_of_ratio (Z.abs total_count) (Z.abs num_of_rows)) as [m e].
  destruct (binary64_overflows m e); [discriminate|].
  replace (- total_count <? 0) with false in Hpos by (symmetry; apply Z.ltb_ge; lia).
  replace (total_count <? 0) with true by (symmetry; apply Z.ltb_lt; lia).
  replace (num_of_rows <? 0) with false in * by (symmetry; apply Z.ltb_ge; lia).
  simpl in Hpos. simpl.
  assert (Hk : 1 <= ceil_div (- total_count) num_of_rows) by nia.
  destruct (0 <=? e) eqn:He.
  - injection Hpos as Hpos. eexists. split; [reflexivity|].
    apply Z.leb_le in He. assert (0 < 2 ^ e) by (apply Z.pow_pos_nonneg; lia). nia.
  - injection Hpos as Hpos. eexists. split; [reflexivity|].
    apply Z.leb_gt in He. assert (0 < 2 ^ (- e)) by (apply Z.pow_pos_nonneg; lia).
    assert (0 < m).
    { destruct (Z_lt_le_dec 0 m) as [Hm|Hm]; [exact Hm|].
      pose proof (Z.div_pos (- m) (2 ^ (- e)) ltac:(lia) ltac:(lia)). lia. }
    pose proof (Z.div_pos m (2 ^ (- e)) ltac:(lia) ltac:(lia)).
    rewrite Z.opp_involutive. lia.
Qed.

(** X6. A negative totalCount is treated like zero: for a count between
    -2^53 and 0 and a positive page size, the page count is not positive,
    no page is fetched after the probe and the result is the empty list. *)
Theorem collector_negative_count
        (env : environment) (base_url : pystr) (num_of_rows : Z)
        (service_key : option pystr) (label : pystr) (tr : trace)
        (first_page body : value) (total_count : Z) :
  http_get env tr (page_request env base_url service_key 1 1) = Ok first_page ->
  py_get first_page (str "body") (VDict []) = Ok body ->
  py_get body (str "totalCount") (VInt 0) = Ok (VInt total_count) ->
  - 2 ^ 53 < total_count < 0 ->
  0 < num_of_rows < 2 ^ 1022 ->
  exists total_pages,
    total_pages <= 0 /\
    fetch_all_from_api env base_url num_of_rows service_key label tr
    = (Ok [],
       tr ++ [ EvRequest (page_request env base_url service_key 1 1);
               EvPrint (MsgCollectStart label (VInt total_count) total_pages);
               EvPrint (MsgCollectDone label 0) ]).
Proof.
  intros Hget Hbody Hcount Hc Hn.
  destruct (total_pages_of_negative total_count num_of_rows Hc Hn) as (k & Hk & Hle).
  exists k. split; [exact Hle|].
  unfold fetch_all_from_api, fetch_page, bind, call, lift, emit, ret.
  fold (page_request env base_url service_key 1 1).
  rewrite Hget, Hbody, Hcount, Hk, (py_range_nil 1 (k + 1)) by lia.
  cbn. rewrite <- !app_assoc. reflexivity.
Qed.

Lemma collector_negative_count_witness :
  exists total_pages,
    total_pages <= 0 /\
    fetch_all_from_api negative_env (str "http://api") 2 None MIXTURE_LABEL []
    = (Ok [],
       [] ++ [ EvRequest (page_request negative_env (str "http://api") None 1 1);
               EvPrint (MsgCollectStart MIXTURE_LABEL (VInt (-3)) total_pages);
               EvPrint (MsgCollectDone MIXTURE_LABEL 0) ]).
Proof.
  apply (collector_negative_count negative_env (str "http://api") 2 None
           MIXTURE_LABEL [] negative_page
           (VDict [ (str "totalCount", VInt (-3)) ]) (-3)).
  - reflexivity.
  - reflexivity.
  - reflexivity.
  - split; reflexivity.
  - split; reflexivity.
Defined.

(** X7. When a page delivers its items as one object instead of a list,
    the loop runs over the object's keys: the collector returns the key
    names as strs, not the record inside. *)
Theorem collector_iterates_object_keys
        (env : environment) (resp : request -> except value)
        (base_url : pystr) (num_of_rows : Z) (service_key : option pystr)
        (label : pystr) (obj : Z -> dict) (total_pages : Z) (tr : trace) :
  (forall tr r, http_get env tr r = resp r) ->
  (first_page <- resp (page_request env base_url service_key 1 1) ;;
   probe_pages first_page num_of_rows)%except = Ok total_pages ->
  (forall p, 1 <= p <= total_pages ->
             (data <- resp (page_request env base_url service_key p num_of_rows) ;;
              page_items data)%except = Ok (VDict (obj p))) ->
  fst (fetch_all_from_api env base_url num_of_rows service_key label tr)
  = Ok (flat_map (fun p => map VStr (dict_keys (obj p)))
                 (py_range 1 (total_pages + 1))).
Proof.
  intros Hserver Hprobe Hpages.
  rewrite (fetch_all_from_api_probe env resp Hserver).
  destruct (resp (page_request env base_url service_key 1 1)) as [first_page|e];
    [|discriminate].
  unfold probe_pages in Hprobe. simpl ebind in *.
  destruct (py_get first_page (str "body") (VDict [])) as [body|e]; [|discriminate].
  simpl ebind in *.
  destruct (py_get body (str "totalCount") (VInt 0)) as [total_count|e]; [|discriminate].
  simpl ebind in *. rewrite Hprobe. simpl ebind. cbv beta iota.
  destruct (collect_pages_all env resp Hserver base_url num_of_rows service_key
              (fun p => map VStr (dict_keys (obj p))) total_pages
              (py_range 1 (total_pages + 1)) []
              (tr ++ [EvRequest (page_request env base_url service_key 1 1);
                      EvPrint (MsgCollectStart label total_count total_pages)]))
    as (tr' & Hrun & _).
  { intros p Hp. apply in_py_range in Hp.
    specialize (Hpages p ltac:(lia)). unfold page_elems.
    destruct (resp (page_request env base_url service_key p num_of_rows))
      as [data|e]; [|discriminate].
    simpl ebind in *. rewrite Hpages. reflexivity. }
  rewrite Hrun. simpl. f_equal. apply flat_map_ext. intros p.
  rewrite map_map. apply map_ext. intros k. reflexivity.
Qed.

Lemma collector_iterates_object_keys_witness :
  fst (fetch_all_from_api single_object_env (str "http://api") 2 None
                          MIXTURE_LABEL [])
  = Ok (flat_map (fun p => map VStr (dict_keys
                    [ (str "item", VDict [ (str "MIX", VStr (str "A")) ]) ]))
                 (py_range 1 (1 + 1))).
Proof.
  apply (collector_iterates_object_keys single_object_env
           (fun _ => Ok single_object_page) (str "http://api") 2 None
           MIXTURE_LABEL
           (fun _ => [ (str "item", VDict [ (str "MIX", VStr (str "A")) ]) ])
           1 []).
  - reflexivity.
  - reflexivity.
  - intros p _. reflexivity.
Defined.

(** ** The writer under a store that may fail *)

Lemma slices_are_batches {A} (rows : list A) (batch_size : Z) :
  0 < batch_size ->
  map (fun i => py_slice rows (i * batch_size) (i * batch_size + batch_size))
      (py_range 0 (ceil_div (len rows) batch_size))
  = batches_of rows batch_size.
Proof.
  intros HB. unfold batches_of. rewrite py_range_0, map_map.
  apply map_ext. intros i. apply py_slice_chunk. exact HB.
Qed.

Lemma concat_batches_of {A} (rows : list A) (batch_size : Z) :
  0 < batch_size -> concat (batches_of rows batch_size) = rows.
Proof.
  intros HB. unfold batches_of. rewrite concat_chunks. apply firstn_all2.
  pose proof (ceil_div_spec (len rows) batch_size HB) as Hc.
  unfold len in *. nia.
Qed.

Lemma batches_of_nil {A} (batch_size : Z) :
  0 < batch_size -> batches_of (@nil A) batch_size = [].
Proof.
  intros HB. unfold batches_of, ceil_div. change (len (@nil A)) with 0.
  change (- 0) with 0. rewrite Z.div_0_l by lia. reflexivity.
Qed.

Section FallibleStore.

Variable env : environment.
Variables (rows : list dict) (table_name : pystr) (batch_size : Z).

Let slice (i : Z) : list dict :=
  py_slice rows (i * batch_size) (i * batch_size + batch_size).

(** The batch loop against a store that accepts [j] calls and rejects the
    next one. *)
Lemma upsert_batches_rejected (batches : Z) (e : exn) (indices : list Z) :
  forall (j : nat) (tr : trace),
    (j < List.length indices)%nat ->
    (forall tr' t b,
        (List.length (upserts_of tr') < List.length (upserts_of tr) + j)%nat ->
        store_upsert env tr' t b = Ok tt) ->
    (forall tr' t b,
        List.length (upserts_of tr') = (List.length (upserts_of tr) + j)%nat ->
        store_upsert env tr' t b = Raise e) ->
    exists tr',
      upsert_batches env rows table_name batch_size batches indices tr
      = (Raise e, tr') /\
      upserts_of tr'
      = upserts_of tr ++ map (fun i => (table_name, slice i)) (firstn (S j) indices).
Proof.
  induction indices as [|i indices IH]; intros j tr Hj Hacc Hrej;
    [simpl in Hj; lia|].
  simpl upsert_batches. unfold bind at 1. unfold emit at 1.
  unfold bind at 1. unfold call at 1. fold (slice i).
  set (tr1 := tr ++ [EvPrint (MsgBatch (i + 1) batches (len (slice i)))]).
  assert (Hu1 : upserts_of tr1 = upserts_of tr).
  { unfold tr1. rewrite upserts_of_app. simpl. apply app_nil_r. }
  destruct j as [|j].
  - rewrite (Hrej tr1) by (rewrite Hu1; lia).
    eexists. split; [reflexivity|].
    rewrite upserts_of_app, Hu1. reflexivity.
  - rewrite (Hacc tr1) by (rewrite Hu1; lia).
    assert (Hu2 : upserts_of (tr1 ++ [EvUpsert table_name (slice i)])
                  = upserts_of tr ++ [(table_name, slice i)]).
    { rewrite upserts_of_app, Hu1. reflexivity. }
    destruct (IH j (tr1 ++ [EvUpsert table_name (slice i)])) as (tr' & Hrun & Hups).
    + simpl in Hj. lia.
    + intros tr' t b Hlt. apply Hacc. rewrite Hu2, length_app in Hlt.
      simpl in Hlt. lia.
    + intros tr' t b Heq. apply Hrej. rewrite Hu2, length_app in Heq.
      simpl in Heq. lia.
    + exists tr'. split; [exact Hrun|].
      rewrite Hups, Hu2, <- app_assoc. reflexivity.
Qed.

End FallibleStore.

(** X8. A failing batch stops the write.  With a store that accepts j
    upsert calls and rejects the next with an error, upsert_to_supabase
    raises that error; the calls it made are batches 0..j in order, the
    rejected one last, and no batch after it is sent.  Nothing is rolled
    back. *)
Theorem writer_stops_at_rejected_batch
        (env : environment) (rows : list dict) (table_name : pystr)
        (batch_size : Z) (j : nat) (e : exn) (tr : trace) :
  supabase_client env tr = Ok tt ->
  0 < batch_size < 2 ^ 1022 ->
  len rows < 2 ^ 53 ->
  (j < List.length (batches_of rows batch_size))%nat ->
  (forall tr' t b,
      (List.length (upserts_of tr') < List.length (upserts_of tr) + j)%nat ->
      store_upsert env tr' t b = Ok tt) ->
  (forall tr' t b,
      List.length (upserts_of tr') = (List.length (upserts_of tr) + j)%nat ->
      store_upsert env tr' t b = Raise e) ->
  exists tr',
    upsert_to_supabase env rows table_name batch_size tr = (Raise e, tr') /\
    upserts_of tr'
    = upserts_of tr ++
      map (fun b => (table_name, b)) (firstn (S j) (batches_of rows batch_size)).
Proof.
  intros Hclient HB HN Hj Hacc Hrej.
  unfold upsert_to_supabase. unfold bind at 1. unfold call at 1. rewrite Hclient.
  destruct (len rows =? 0) eqn:Hlen.
  { apply Z.eqb_eq in Hlen.
    assert (rows = []) by (destruct rows; [reflexivity|discriminate]). subst rows.
    rewrite batches_of_nil in Hj by lia. simpl in Hj. lia. }
  apply Z.eqb_neq in Hlen.
  assert (Hpos : 0 < len rows) by (unfold len in *; lia).
  unfold bind at 1. unfold lift at 1.
  change (ebind (int_true_div (len rows) batch_size) (fun q => math_ceil q))
    with (ebind (int_true_div (len rows) batch_size) math_ceil).
  rewrite (true_div_ceil_exact (len rows) batch_size) by lia.
  assert (Hu0 : upserts_of (tr ++ [EvClient]) = upserts_of tr).
  { rewrite upserts_of_app. simpl. apply app_nil_r. }
  destruct (upsert_batches_rejected env rows table_name batch_size
              (ceil_div (len rows) batch_size) e
              (py_range 0 (ceil_div (len rows) batch_size)) j (tr ++ [EvClient]))
    as (tr' & Hrun & Hups).
  - rewrite length_py_range. unfold batches_of in Hj.
    rewrite length_map, length_seq in Hj. lia.
  - intros tr0 t b. rewrite Hu0. apply Hacc.
  - intros tr0 t b. rewrite Hu0. apply Hrej.
  - unfold bind at 1. rewrite Hrun. exists tr'. split; [reflexivity|].
    rewrite Hups, Hu0. f_equal.
    rewrite <- (slices_are_batches rows batch_size) by lia.
    rewrite <- !firstn_map, map_map. reflexivity.
Qed.

Lemma writer_stops_at_rejected_batch_witness :
  exists tr',
    upsert_to_supabase third_batch_fails
                       (three_rows ++ three_rows) (str "mixtures") 1 []
    = (Raise (StoreError 500), tr') /\
    upserts_of tr'
    = upserts_of [] ++
      map (fun b => (str "mixtures", b))
          (firstn 3 (batches_of (three_rows ++ three_rows) 1)).
Proof.
  apply (writer_stops_at_rejected_batch third_batch_fails
           (three_rows ++ three_rows) (str "mixtures") 1 2 (StoreError 500) []).
  - reflexivity.
  - split; reflexivity.
  - reflexivity.
  - vm_compute. lia.
  - intros tr' t b Hlt. simpl in Hlt. simpl.
    replace (List.length (upserts_of tr') <? 2)%nat with true
      by (symmetry; apply Nat.ltb_lt; exact Hlt).
    reflexivity.
  - intros tr' t b Heq. simpl in Heq. simpl. rewrite Heq. reflexivity.
Defined.

(** The writer against a store that accepts every batch. *)
Lemma upsert_to_supabase_accepted
      (env : environment) (rows : list dict) (table_name : pystr)
      (batch_size : Z) (tr : trace) :
  supabase_client env tr = Ok tt ->
  (forall tr' t b, store_upsert env tr' t b = Ok tt) ->
  0 < batch_size < 2 ^ 1022 ->
  len rows < 2 ^ 53 ->
  exists tr',
    upsert_to_supabase env rows table_name batch_size tr = (Ok tt, tr') /\
    upserts_of tr'
    = upserts_of tr ++ map (fun b => (table_name, b)) (batches_of rows batch_size).
Proof.
  intros Hclient Hstore HB HN.
  unfold upsert_to_supabase. unfold bind at 1. unfold call at 1. rewrite Hclient.
  assert (Hu0 : upserts_of (tr ++ [EvClient]) = upserts_of tr).
  { rewrite upserts_of_app. simpl. apply app_nil_r. }
  destruct (len rows =? 0) eqn:Hlen.
  { apply Z.eqb_eq in Hlen.
    assert (rows = []) by (destruct rows; [reflexivity|discriminate]). subst rows.
    rewrite batches_of_nil by lia. eexists. split; [reflexivity|].
    rewrite upserts_of_app, Hu0. simpl. reflexivity. }
  apply Z.eqb_neq in Hlen.
  assert (Hpos : 0 < len rows) by (unfold len in *; lia).
  unfold bind at 1. unfold lift at 1.
  change (ebind (int_true_div (len rows) batch_size) (fun q => math_ceil q))
    with (ebind (int_true_div (len rows) batch_size) math_ceil).
  rewrite (true_div_ceil_exact (len rows) batch_size) by lia.
  destruct (upsert_batches_ok env Hstore rows table_name batch_size
              (ceil_div (len rows) batch_size)
              (py_range 0 (ceil_div (len rows) batch_size)) (tr ++ [EvClient]))
    as (tr' & Hrun & Hups).
  unfold bind at 1. rewrite Hrun. eexists. split; [reflexivity|].
  unfold emit. simpl snd. rewrite upserts_of_app, Hups, Hu0. simpl.
  rewrite app_nil_r. f_equal.
  rewrite <- (slices_are_batches rows batch_size) by lia.
  rewrite map_map. reflexivity.
Qed.

(** Every request of the collector goes to the base URL with the given key
    or, without one, the configured key. *)
Lemma collect_pages_requests (env : environment) (base_url : pystr)
      (num_of_rows : Z) (service_key : option pystr) (total_pages : Z)
      (pages : list Z) (all_items : list value) (tr : trace) :
  exists new,
    snd (collect_pages env base_url num_of_rows
                       (py_or service_key (MIXTURE_API_SERVICE_KEY env))
                       total_pages pages all_items tr) = tr ++ new /\
    Forall (fun r => serviceKey r = py_or service_key (MIXTURE_API_SERVICE_KEY env) /\
                     req_url r = base_url)
           (requests_of new).
Proof.
  revert all_items tr. induction pages as [|p pages IH]; intros all_items tr.
  - exists []. rewrite app_nil_r. split; [reflexivity|constructor].
  - simpl. unfold bind at 1. unfold fetch_page, call.
    rewrite py_or_fallback_twice.
    set (r := {| req_url := base_url;
                 serviceKey := py_or service_key (MIXTURE_API_SERVICE_KEY env);
                 pageNo := p; numOfRows := num_of_rows |}).
    assert (Hstop : forall (x : except (list value)),
               exists new, snd (x, tr ++ [EvRequest r]) = tr ++ new /\
                 Forall (fun r => serviceKey r
                                  = py_or service_key (MIXTURE_API_SERVICE_KEY env) /\
                                  req_url r = base_url) (requests_of new)).
    { intros x. exists [EvRequest r]. split; [reflexivity|].
      repeat constructor. }
    destruct (http_get env tr r) as [data|e]; [|apply Hstop].
    unfold bind at 1. unfold lift at 1.
    destruct (py_get data (str "body") (VDict [])) as [body|e]; [|apply Hstop].
    unfold bind at 1. unfold lift at 1.
    destruct (py_get body (str "items") (VList [])) as [items|e]; [|apply Hstop].
    unfold bind at 1. unfold lift at 1.
    destruct (py_iter items) as [elems|e]; [|apply Hstop].
    unfold bind at 1.
    destruct ((p mod 10 =? 0) || (p =? total_pages)).
    + unfold emit at 1. unfold bind at 1. unfold emit at 1.
      edestruct IH as (new & Hnew & HP). rewrite Hnew.
      eexists. rewrite <- !app_assoc. split; [reflexivity|].
      simpl. constructor; [split; reflexivity|exact HP].
    + unfold ret at 1. unfold bind at 1. unfold emit at 1.
      edestruct IH as (new & Hnew & HP). rewrite Hnew.
      eexists. rewrite <- !app_assoc. split; [reflexivity|].
      simpl. constructor; [split; reflexivity|exact HP].
Qed.

Lemma collector_events_quiet_requests (env : environment) (base_url : pystr)
      (num_of_rows : Z) (service_key : option pystr) (label : pystr) (tr : trace) :
  exists new,
    snd (fetch_all_from_api env base_url num_of_rows service_key label tr)
    = tr ++ new /\
    fs_ops_of (tr ++ new) = fs_ops_of tr /\
    Forall (fun r => serviceKey r = py_or service_key (MIXTURE_API_SERVICE_KEY env) /\
                     req_url r = base_url)
           (requests_of new).
Proof.
  destruct (fetch_all_from_api_adds env base_url num_of_rows service_key label tr)
    as (new & Hnew & HP).
  exists new. split; [exact Hnew|]. split.
  { destruct (collector_events_quiet new HP) as (_ & Hf & _).
    rewrite fs_ops_of_app, Hf. apply app_nil_r. }
  revert Hnew. unfold fetch_all_from_api.
  unfold bind at 1. unfold fetch_page, call. rewrite py_or_fallback_twice.
  set (r := {| req_url := base_url;
               serviceKey := py_or service_key (MIXTURE_API_SERVICE_KEY env);
               pageNo := 1; numOfRows := 1 |}).
  assert (Hstop : forall (x : except (list value)),
             snd (x, tr ++ [EvRequest r]) = tr ++ new ->
             Forall (fun r => serviceKey r
                              = py_or service_key (MIXTURE_API_SERVICE_KEY env) /\
                              req_url r = base_url) (requests_of new)).
  { intros x Hx. simpl in Hx. apply app_inv_head in Hx. subst new.
    repeat constructor. }
  destruct (http_get env tr r) as [first_page|e]; [|apply Hstop].
  unfold bind at 1. unfold lift at 1.
  destruct (py_get first_page (str "body") (VDict [])) as [body|e]; [|apply Hstop].
  unfold bind at 1. unfold lift at 1.
  destruct (py_get body (str "totalCount") (VInt 0)) as [total_count|e]; [|apply Hstop].
  unfold bind at 1. unfold lift at 1.
  destruct (total_pages_of total_count num_of_rows) as [total_pages|e]; [|apply Hstop].
  unfold bind at 1. unfold emit at 1. unfold bind at 1.
  destruct (collect_pages_requests env base_url num_of_rows service_key total_pages
              (py_range 1 (total_pages + 1)) []
              ((tr ++ [EvRequest r])
                 ++ [EvPrint (MsgCollectStart label total_count total_pages)]))
    as (new2 & Hnew2 & HP2).
  destruct (collect_pages _ _ _ _ _ _ _ _) as [[all_items|e] tr'];
    simpl in Hnew2; subst tr'.
  - unfold bind, emit, ret. simpl. rewrite <- !app_assoc. intros Hx.
    apply app_inv_head in Hx. subst new. simpl.
    rewrite requests_of_app. simpl. rewrite app_nil_r.
    constructor; [split; reflexivity|exact HP2].
  - simpl. rewrite <- !app_assoc. intros Hx.
    apply app_inv_head in Hx. subst new. simpl.
    constructor; [split; reflexivity|exact HP2].
Qed.

Lemma collector_never_writes_fs (env : environment) (base_url : pystr)
      (num_of_rows : Z) (service_key : option pystr) (label : pystr) (tr : trace) :
  fs_ops_of (snd (fetch_all_from_api env base_url num_of_rows service_key label tr))
  = fs_ops_of tr.
Proof.
  destruct (fetch_all_from_api_adds env base_url num_of_rows service_key label tr)
    as (new & Hnew & HP).
  rewrite Hnew, fs_ops_of_app.
  destruct (collector_events_quiet new HP) as (_ & Hf & _).
  rewrite Hf. apply app_nil_r.
Qed.

(** X17. For every environment, input and batch size, the first thing
    upsert_to_supabase does is to create the store client, once: also for
    an empty input, where nothing is upserted.  If the client cannot be
    created the call raises that error and does nothing else. *)
Theorem writer_creates_one_client_first
        (env : environment) (rows : list dict) (table_name : pystr)
        (batch_size : Z) (tr : trace) :
  exists rest,
    snd (upsert_to_supabase env rows table_name batch_size tr)
    = tr ++ EvClient :: rest /\
    clients_of rest = 0%nat /\
    (rows = [] -> upserts_of rest = []) /\
    (forall e, supabase_client env tr = Raise e ->
               rest = [] /\
               fst (upsert_to_supabase env rows table_name batch_size tr) = Raise e).
Proof.
  destruct (supabase_client env tr) as [[]|e0] eqn:Hcl.
  - assert (Hrest : adds_only batch_event
              (if len rows =? 0 then emit (EvPrint MsgNoRows)
               else bind (lift (q <- int_true_div (len rows) batch_size ;;
                                math_ceil q)%except)
                         (fun batches =>
                            bind (upsert_batches env rows table_name batch_size batches
                                                 (py_range 0 batches))
                                 (fun _ => emit (EvPrint (MsgUpsertDone (len rows))))))).
    { destruct (len rows =? 0); [adds_only_step|].
      apply adds_only_bind; [apply adds_only_lift|intros batches].
      apply adds_only_bind; [|intros _; adds_only_step].
      induction (py_range 0 batches) as [|i l IH]; simpl.
      - apply adds_only_ret.
      - apply adds_only_bind; [adds_only_step|intros _].
        apply adds_only_bind; [adds_only_step|intros _]. exact IH. }
    destruct (Hrest (tr ++ [EvClient])) as (rest & Hsnd & HP).
    exists rest. split.
    { unfold upsert_to_supabase. unfold bind at 1. unfold call at 1.
      rewrite Hcl, Hsnd, <- app_assoc. reflexivity. }
    split.
    { clear Hsnd. induction HP as [|ev rest Hev _ IH]; [reflexivity|].
      destruct ev; simpl in *; try contradiction; exact IH. }
    split; [|intros e He; discriminate].
    intros ->. simpl in Hsnd. unfold emit in Hsnd. simpl in Hsnd.
    apply app_inv_head in Hsnd. subst rest. reflexivity.
  - assert (Hrun : upsert_to_supabase env rows table_name batch_size tr
                   = (Raise e0, tr ++ [EvClient])).
    { unfold upsert_to_supabase. unfold bind at 1. unfold call at 1.
      rewrite Hcl. reflexivity. }
    exists []. rewrite Hrun. split; [reflexivity|]. split; [reflexivity|].
    split; [reflexivity|]. intros e He. injection He as ->. split; reflexivity.
Qed.

(** ** The snapshot *)

(** X9. With the base URL and the key configured and no save path (None
    or the empty string), fetch_mixture_data is exactly the collector run
    on the configured URL and page size with the configured key: same
    result, same events, no file-system call. *)
Theorem fetch_mixture_data_without_path
        (env : environment) (save_path : option pystr) (tr : trace)
        (c : N) (url : pystr) (c' : N) (key : pystr) :
  MIXTURE_API_BASE_URL env = Some (c :: url) ->
  MIXTURE_API_SERVICE_KEY env = Some (c' :: key) ->
  save_path = None \/ save_path = Some [] ->
  fetch_mixture_data env save_path tr
  = fetch_all_from_api env (c :: url) (MIXTURE_API_NUM_OF_ROWS env) None
                       MIXTURE_LABEL tr /\
  fs_ops_of (snd (fetch_mixture_data env save_path tr)) = fs_ops_of tr /\
  Forall (fun r => serviceKey r = Some (c' :: key) /\ req_url r = c :: url)
         (skipn (List.length (requests_of tr))
                (requests_of (snd (fetch_mixture_data env save_path tr)))).
Proof.
  intros Hurl Hkey Hpath.
  assert (Heq : fetch_mixture_data env save_path tr
                = fetch_all_from_api env (c :: url) (MIXTURE_API_NUM_OF_ROWS env)
                                     None MIXTURE_LABEL tr).
  { unfold fetch_mixture_data. rewrite Hurl, Hkey. unfold bind.
    destruct (fetch_all_from_api _ _ _ _ _ tr) as [[items|e] tr'];
      [|reflexivity].
    destruct Hpath as [->| ->]; reflexivity. }
  split; [exact Heq|]. rewrite Heq.
  destruct (collector_events_quiet_requests env (c :: url)
              (MIXTURE_API_NUM_OF_ROWS env) None MIXTURE_LABEL tr)
    as (new & Hnew & Hfs & Hreq).
  rewrite Hnew. split; [exact Hfs|].
  rewrite requests_of_app, skipn_app, skipn_all, Nat.sub_diag. simpl.
  rewrite Hkey in Hreq. exact Hreq.
Qed.

Lemma fetch_mixture_data_without_path_witness :
  fetch_mixture_data five_env (Some []) []
  = fetch_all_from_api five_env (str "http://api")
                       (MIXTURE_API_NUM_OF_ROWS five_env) None MIXTURE_LABEL [] /\
  fs_ops_of (snd (fetch_mixture_data five_env (Some []) [])) = fs_ops_of [] /\
  Forall (fun r => serviceKey r = Some (str "key") /\ req_url r = str "http://api")
         (skipn (List.length (requests_of []))
                (requests_of (snd (fetch_mixture_data five_env (Some []) [])))).
Proof.
  apply (fetch_mixture_data_without_path five_env (Some []) []
           104%N (str "ttp://api") 107%N (str "ey")).
  - reflexivity.
  - reflexivity.
  - right. reflexivity.
Defined.

(** X10. No snapshot of a failed collection: with the configuration in
    place, if the collector raises, fetch_mixture_data raises the same
    error and has made no file-system call, whatever the save path. *)
Theorem no_snapshot_of_failed_collection
        (env : environment) (save_path : option pystr) (tr : trace)
        (c : N) (url : pystr) (c' : N) (key : pystr) (e : exn) :
  MIXTURE_API_BASE_URL env = Some (c :: url) ->
  MIXTURE_API_SERVICE_KEY env = Some (c' :: key) ->
  fst (fetch_all_from_api env (c :: url) (MIXTURE_API_NUM_OF_ROWS env) None
                          MIXTURE_LABEL tr) = Raise e ->
  fetch_mixture_data env save_path tr
  = (Raise e,
     snd (fetch_all_from_api env (c :: url) (MIXTURE_API_NUM_OF_ROWS env) None
                             MIXTURE_LABEL tr)) /\
  fs_ops_of (snd (fetch_mixture_data env save_path tr)) = fs_ops_of tr.
Proof.
  intros Hurl Hkey Hfail.
  assert (Heq : fetch_mixture_data env save_path tr
                = (Raise e,
                   snd (fetch_all_from_api env (c :: url) (MIXTURE_API_NUM_OF_ROWS env)
                                           None MIXTURE_LABEL tr))).
  { unfold fetch_mixture_data. rewrite Hurl, Hkey. unfold bind at 1.
    destruct (fetch_all_from_api _ _ _ _ _ tr) as [[items|e0] tr'];
      simpl in Hfail; [discriminate|].
    injection Hfail as ->. reflexivity. }
  split; [exact Heq|]. rewrite Heq. simpl.
  apply collector_never_writes_fs.
Qed.

Lemma no_snapshot_of_failed_collection_witness :
  fetch_mixture_data third_page_fails (Some RAW_PATH) []
  = (Raise (RequestError 503),
     snd (fetch_all_from_api third_page_fails (str "http://api")
                             (MIXTURE_API_NUM_OF_ROWS third_page_fails) None
                             MIXTURE_LABEL [])) /\
  fs_ops_of (snd (fetch_mixture_data third_page_fails (Some RAW_PATH) []))
  = fs_ops_of [].
Proof.
  apply (no_snapshot_of_failed_collection third_page_fails (Some RAW_PATH) []
           104%N (str "ttp://api") 107%N (str "ey") (RequestError 503)).
  - reflexivity.
  - reflexivity.
  - reflexivity.
Defined.

(** X11. The snapshot is what was collected.  With the configuration in
    place, a non-empty save path and a file system that accepts every call,
    once the collector has returned its items fetch_mixture_data creates
    the directory of the path (unless that directory name is empty), writes
    exactly the collected items to the path, prints, and returns the same
    items; it sends no request after the collector's. *)
Theorem snapshot_holds_collected_items
        (env : environment) (tr tr1 : trace) (items : list value)
        (c : N) (url : pystr) (c' : N) (key : pystr) (c0 : N) (path : pystr) :
  MIXTURE_API_BASE_URL env = Some (c :: url) ->
  MIXTURE_API_SERVICE_KEY env = Some (c' :: key) ->
  (forall tr' op, fs_do env tr' op = Ok tt) ->
  fetch_all_from_api env (c :: url) (MIXTURE_API_NUM_OF_ROWS env) None
                     MIXTURE_LABEL tr = (Ok items, tr1) ->
  exists tr',
    fetch_mixture_data env (Some (c0 :: path)) tr = (Ok items, tr') /\
    fs_ops_of tr'
    = fs_ops_of tr ++
      match os_path_dirname env (c0 :: path) with
      | [] => []
      | dir => [Makedirs dir]
      end ++ [WriteJson (c0 :: path) items] /\
    requests_of tr' = requests_of tr1.
Proof.
  intros Hurl Hkey Hfs Hrun.
  pose proof (collector_never_writes_fs env (c :: url) (MIXTURE_API_NUM_OF_ROWS env)
                None MIXTURE_LABEL tr) as Hquiet.
  rewrite Hrun in Hquiet. simpl in Hquiet.
  unfold fetch_mixture_data. rewrite Hurl, Hkey. unfold bind at 1. rewrite Hrun.
  unfold bind at 1. unfold bind at 1.
  destruct (os_path_dirname env (c0 :: path)) as [|d dir] eqn:Hdir.
  - unfold ret at 1. unfold bind at 1. unfold call at 1. rewrite Hfs.
    unfold emit, ret. eexists. split; [reflexivity|].
    rewrite !fs_ops_of_app, !requests_of_app, Hquiet. simpl.
    rewrite !app_nil_r. split; reflexivity.
  - unfold call at 1. rewrite Hfs.
    unfold bind at 1. unfold call at 1. rewrite Hfs.
    unfold emit, ret. eexists. split; [reflexivity|].
    rewrite !fs_ops_of_app, !requests_of_app, Hquiet. simpl.
    rewrite !app_nil_r, <- app_assoc. split; reflexivity.
Qed.

Lemma snapshot_holds_collected_items_witness :
  exists tr',
    fetch_mixture_data third_batch_fails (Some RAW_PATH) []
    = (Ok [ VStr (str "r1"); VStr (str "r2"); VStr (str "r3"); VStr (str "r4");
            VStr (str "r5") ], tr') /\
    fs_ops_of tr'
    = fs_ops_of [] ++
      match os_path_dirname third_batch_fails (100%N :: str "ata/raw/mixture_raw.json") with
      | [] => []
      | dir => [Makedirs dir]
      end ++ [WriteJson (100%N :: str "ata/raw/mixture_raw.json")
                        [ VStr (str "r1"); VStr (str "r2"); VStr (str "r3");
                          VStr (str "r4"); VStr (str "r5") ]] /\
    requests_of tr'
    = requests_of (snd (fetch_all_from_api third_batch_fails (str "http://api") 2
                                           None MIXTURE_LABEL [])).
Proof.
  apply (snapshot_holds_collected_items third_batch_fails []
           (snd (fetch_all_from_api third_batch_fails (str "http://api") 2
                                    None MIXTURE_LABEL []))
           [ VStr (str "r1"); VStr (str "r2"); VStr (str "r3"); VStr (str "r4");
             VStr (str "r5") ]
           104%N (str "ttp://api") 107%N (str "ey")
           100%N (str "ata/raw/mixture_raw.json")).
  - reflexivity.
  - reflexivity.
  - intros tr' op. reflexivity.
  - vm_compute. reflexivity.
Defined.

(** ** What the normaliser stores *)

Lemma lstrip_head_ok (s : pystr) : head_ok (lstrip s).
Proof.
  induction s as [|c s IH]; simpl; [exact I|].
  destruct (is_space c) eqn:E; [exact IH|exact E].
Qed.

Lemma lstrip_fixed (s : pystr) : head_ok s -> lstrip s = s.
Proof. destruct s as [|c s]; simpl; [reflexivity|]. intros ->. reflexivity. Qed.

Lemma lstrip_suffix (s : pystr) : exists w, s = w ++ lstrip s.
Proof.
  induction s as [|c s [w IH]]; [exists []; reflexivity|].
  simpl. destruct (is_space c).
  - exists (c :: w). simpl. rewrite <- IH. reflexivity.
  - exists []. reflexivity.
Qed.

Lemma rstrip_prefix (s : pystr) : exists w, s = rstrip s ++ w.
Proof.
  unfold rstrip. destruct (lstrip_suffix (rev s)) as [w Hw].
  exists (rev w). rewrite <- rev_app_distr, <- Hw, rev_involutive. reflexivity.
Qed.

Lemma strip_trimmed (s : pystr) : trimmed (strip s).
Proof.
  unfold trimmed, strip. split.
  - pose proof (lstrip_head_ok s) as Hh.
    destruct (rstrip_prefix (lstrip s)) as [w Hw].
    destruct (rstrip (lstrip s)) as [|c t]; [exact I|].
    rewrite Hw in Hh. exact Hh.
  - unfold rstrip. rewrite rev_involutive. apply lstrip_head_ok.
Qed.

Lemma trimmed_strip (s : pystr) : trimmed s -> strip s = s.
Proof.
  intros [H1 H2]. unfold strip, rstrip.
  rewrite (lstrip_fixed s H1), (lstrip_fixed (rev s) H2). apply rev_involutive.
Qed.

Lemma strip_strip (s : pystr) : strip (strip s) = strip s.
Proof. apply trimmed_strip, strip_trimmed. Qed.

Section Stored.

Context {I : interpreter}.

(** The date the normaliser stores is trimmed, and is not eight digits. *)
Lemma parse_date_shape (v : value) (s : pystr) :
  _parse_date_yyyymmdd v = Some s ->
  trimmed s /\ (len s =? 8) && isdigit s = false.
Proof.
  unfold _parse_date_yyyymmdd.
  destruct (negb (truthy v)); [discriminate|].
  pose proof (strip_trimmed (py_str v)) as Ht.
  destruct ((len (strip (py_str v)) =? 8) && isdigit (strip (py_str v))) eqn:E.
  - apply andb_true_iff in E as [E _]. apply Z.eqb_eq in E.
    destruct (strip (py_str v)) as [|a [|b [|c [|d [|e [|f [|g [|h [|x t]]]]]]]]];
      try discriminate E.
    2:{ unfold len in E. simpl in E. lia. }
    intros Hs. injection Hs as <-. split; [|reflexivity].
    destruct Ht as [H1 H2]. split; [exact H1|exact H2].
  - intros Hs. injection Hs as <-. split; [exact Ht|exact E].
Qed.

Lemma clean_value_trimmed (col : pystr) (v : value) (s : pystr) :
  clean_value col v = VStr s -> trimmed s.
Proof.
  unfold clean_value.
  destruct (str_eqb col (str "NOTIFICATION_DATE")).
  - destruct (_parse_date_yyyymmdd v) as [t|] eqn:E; [|discriminate].
    intros Hs. injection Hs as <-. apply (parse_date_shape v t E).
  - destruct (str_eqb col (str "DEL_YN")).
    + destruct (_ || _); discriminate.
    + destruct v; intros Hs; injection Hs as <-;
        first [apply strip_trimmed | unfold trimmed; simpl; split; trivial].
Qed.

(** Normalising a value the normaliser stored. *)
Lemma clean_value_again (col : pystr) (v : value) :
  clean_value col (clean_value col v)
  = match clean_value col v with
    | VStr [] => if str_eqb col (str "NOTIFICATION_DATE") then VNone else VStr []
    | w => w
    end.
Proof.
  destruct (clean_value col v) as [| | | |s| |] eqn:Hv;
    try (exfalso; revert Hv; unfold clean_value;
         destruct (str_eqb col (str "NOTIFICATION_DATE"));
         [destruct (_parse_date_yyyymmdd v); discriminate|];
         destruct (str_eqb col (str "DEL_YN"));
         [destruct (_ || _); discriminate|destruct v; discriminate]).
  - (* null: only the date column stores it *)
    revert Hv. unfold clean_value.
    destruct (str_eqb col (str "NOTIFICATION_DATE")); [reflexivity|].
    destruct (str_eqb col (str "DEL_YN"));
      [destruct (_ || _); discriminate|destruct v; discriminate].
  - (* a bool: only DEL_YN stores it *)
    revert Hv. unfold clean_value.
    destruct (str_eqb col (str "NOTIFICATION_DATE"));
      [destruct (_parse_date_yyyymmdd v); discriminate|].
    destruct (str_eqb col (str "DEL_YN")); [|destruct v; discriminate].
    intros _. destruct b; reflexivity.
  - (* a str *)
    pose proof (clean_value_trimmed col v s Hv) as Ht.
    revert Hv. unfold clean_value.
    destruct (str_eqb col (str "NOTIFICATION_DATE")).
    + destruct (_parse_date_yyyymmdd v) as [t|] eqn:E; [|discriminate].
      intros Hs. injection Hs as ->.
      destruct (parse_date_shape v s E) as [_ Hne].
      unfold _parse_date_yyyymmdd. destruct s as [|c s]; [reflexivity|].
      cbn [truthy negb py_str]. rewrite (trimmed_strip _ Ht), Hne. reflexivity.
    + destruct (str_eqb col (str "DEL_YN"));
        [destruct (_ || _); discriminate|].
      intros _. cbn [py_str]. rewrite (trimmed_strip _ Ht).
      destruct s; reflexivity.
Qed.

Lemma resolved_normalised (d : dict) (col : pystr) :
  In col MIXTURE_COLUMNS ->
  resolved (normalised d) col = clean_value col (resolved d col).
Proof.
  intros Hin. unfold resolved, normalised.
  rewrite (dict_get_map (fun c => clean_value c (resolved d c))) by exact Hin.
  reflexivity.
Qed.

(** X12. For every dict, every str clean_record stores has no whitespace
    at either end (its first and last characters are not whitespace), so
    stripping it again changes nothing; this holds for the reformatted
    date too. *)
Theorem stored_strs_are_trimmed (d : dict) :
  exists out,
    clean_record (VDict d) = Ok out /\
    forall col s,
      dict_get out col = Some (VStr s) ->
      trimmed s /\ strip s = s.
Proof.
  eexists. split; [apply clean_record_dict|].
  intros col s Hget.
  assert (Ht : trimmed s).
  { destruct (in_dec (list_eq_dec N.eq_dec) col MIXTURE_COLUMNS) as [Hin|Hout].
    - rewrite (dict_get_map (fun c => clean_value c (resolved d c))) in Hget
        by exact Hin.
      injection Hget as Hget. apply (clean_value_trimmed col _ s Hget).
    - exfalso. revert Hget. generalize (fun c => clean_value c (resolved d c)).
      intros g. induction MIXTURE_COLUMNS as [|c cols IH]; [discriminate|].
      simpl. destruct (str_eqb c col) eqn:E.
      + apply str_eqb_eq in E. subst. exfalso. apply Hout. left. reflexivity.
      + apply IH. intros Hin. apply Hout. right. exact Hin. }
  split; [exact Ht|apply trimmed_strip, Ht].
Qed.

(** X13. Normalising a normalised record gives the same record again,
    except that an empty NOTIFICATION_DATE (what a whitespace-only date
    turns into) becomes null on the second pass. *)
Theorem clean_record_twice (d : dict) :
  exists out,
    clean_record (VDict d) = Ok out /\
    clean_record (VDict out) = Ok (empty_date_to_none out) /\
    (dict_get out (str "NOTIFICATION_DATE") <> Some (VStr []) ->
     empty_date_to_none out = out).
Proof.
  exists (normalised d). split; [apply clean_record_dict|].
  assert (Hagain : Forall (fun c =>
            clean_value c (resolved (normalised d) c)
            = match clean_value c (resolved d c) with
              | VStr [] => if str_eqb c (str "NOTIFICATION_DATE")
                           then VNone else VStr []
              | w => w
              end) MIXTURE_COLUMNS).
  { apply Forall_forall. intros c Hin.
    rewrite (resolved_normalised d c Hin). apply clean_value_again. }
  split.
  - rewrite clean_record_dict. f_equal. unfold empty_date_to_none.
    unfold normalised at 2. rewrite map_map.
    apply map_ext_in. intros c Hin.
    rewrite Forall_forall in Hagain. rewrite (Hagain c Hin).
    destruct (clean_value c (resolved d c)) as [| | | |[|x s]| |]; try reflexivity.
    destruct (str_eqb c (str "NOTIFICATION_DATE")); reflexivity.
  - intros Hdate. unfold empty_date_to_none.
    rewrite <- (map_id (normalised d)) at 2.
    apply map_ext_in. intros [c v] Hin.
    destruct v as [| | | |[|x s]| |]; try reflexivity.
    destruct (str_eqb c (str "NOTIFICATION_DATE")) eqn:E; [|reflexivity].
    exfalso. apply Hdate. apply str_eqb_eq in E. subst c.
    unfold normalised in *. apply in_map_iff in Hin as (c & Hc & Hin).
    injection Hc as <- Hv.
    rewrite (dict_get_map (fun c => clean_value c (resolved d c))) by exact Hin.
    rewrite Hv. reflexivity.
Qed.

End Stored.

(** A whitespace-only date is stored as the empty string, and turns into
    null when the record is normalised again. *)
Example blank_date_twice :
  (out <- clean_record (I := ascii_interpreter)
            (VDict [ (str "NOTIFICATION_DATE", VStr (str "  ")) ]) ;;
   Ok (dict_get out (str "NOTIFICATION_DATE")))%except = Ok (Some (VStr [])) /\
  (out <- clean_record (I := ascii_interpreter)
            (VDict [ (str "NOTIFICATION_DATE", VStr (str "  ")) ]) ;;
   out2 <- clean_record (I := ascii_interpreter) (VDict out) ;;
   Ok (dict_get out2 (str "NOTIFICATION_DATE")))%except = Ok (Some VNone).
Proof. split; reflexivity. Qed.

Lemma dict_get_set_other (d : dict) (k k' : pystr) (v : value) :
  k' <> k -> dict_get (dict_set d k v) k' = dict_get d k'.
Proof.
  intros Hne. induction d as [|[k0 v0] d IH]; simpl.
  - replace (str_eqb k k') with false; [reflexivity|].
    symmetry. apply str_eqb_neq. congruence.
  - destruct (str_eqb k0 k) eqn:E; simpl.
    + apply str_eqb_eq in E. subst k0.
      replace (str_eqb k k') with false; [reflexivity|].
      symmetry. apply str_eqb_neq. congruence.
    + rewrite IH. reflexivity.
Qed.

(** X14. Fields that are not a column are dropped silently: setting, or
    putting in front, a key that is no column name in its exact or
    lower-case spelling (an unknown field, or a column in mixed case such
    as "Mix") leaves the normalised record unchanged. *)
Theorem unknown_fields_are_dropped
        (I : interpreter) (d : dict) (k : pystr) (v : value) :
  (forall col, In col MIXTURE_COLUMNS -> k <> col /\ k <> lower col) ->
  clean_record (VDict (dict_set d k v)) = clean_record (VDict d) /\
  clean_record (VDict ((k, v) :: d)) = clean_record (VDict d).
Proof.
  intros Hk. rewrite !clean_record_dict. split; f_equal.
  - apply map_ext_in. intros col Hin. destruct (Hk col Hin) as [H1 H2].
    unfold resolved. rewrite (MIXTURE_COLUMNS_upper col Hin).
    rewrite !dict_get_set_other by congruence. reflexivity.
  - apply map_ext_in. intros col Hin. destruct (Hk col Hin) as [H1 H2].
    unfold resolved. rewrite (MIXTURE_COLUMNS_upper col Hin). simpl.
    apply str_eqb_neq in H1, H2. rewrite H1, H2. reflexivity.
Qed.

Lemma unknown_fields_are_dropped_witness :
  clean_record (I := ascii_interpreter)
               (VDict (dict_set [ (str "MIX", VStr (str "A")) ] (str "Mix")
                                (VStr (str "B"))))
  = clean_record (I := ascii_interpreter) (VDict [ (str "MIX", VStr (str "A")) ]) /\
  clean_record (I := ascii_interpreter)
               (VDict ((str "Mix", VStr (str "B")) :: [ (str "MIX", VStr (str "A")) ]))
  = clean_record (I := ascii_interpreter) (VDict [ (str "MIX", VStr (str "A")) ]).
Proof.
  apply (unknown_fields_are_dropped ascii_interpreter
           [ (str "MIX", VStr (str "A")) ] (str "Mix") (VStr (str "B"))).
  intros col H. unfold MIXTURE_COLUMNS in H. simpl in H.
  repeat (destruct H as [<-|H]; [split; discriminate|]). contradiction.
Defined.

(** ** The orchestrator *)

Lemma events_of_app (a b : journal) :
  events_of (a ++ b) = events_of a ++ events_of b.
Proof.
  induction a as [|x a IH]; [reflexivity|].
  destruct x; simpl; rewrite IH; reflexivity.
Qed.

Lemma events_of_below (new : trace) : events_of (map Below new) = new.
Proof. induction new as [|ev new IH]; [reflexivity|]. simpl. rewrite IH. reflexivity. Qed.

(** Running a stage that only appends. *)
Lemma run_adds {A} (P : event -> Prop) (c : M A) (j : journal) :
  adds_only P c ->
  exists new,
    c (events_of j) = (fst (c (events_of j)), events_of j ++ new) /\
    run c j = (fst (c (events_of j)), j ++ map Below new) /\
    events_of (j ++ map Below new) = events_of j ++ new /\
    Forall P new.
Proof.
  intros Hc. destruct (Hc (events_of j)) as (new & Hnew & HP).
  exists new. unfold run.
  destruct (c (events_of j)) as [r tr'] eqn:E. simpl in Hnew. subst tr'.
  rewrite skipn_app, skipn_all, Nat.sub_diag. simpl.
  rewrite events_of_app, events_of_below. repeat split. exact HP.
Qed.

Section Pipeline_order.

Context {I : interpreter}.
Variable env : environment.

Lemma clean_all_dicts (ds : list dict) :
  clean_all (map VDict ds) = Ok (map normalised ds).
Proof.
  induction ds as [|d ds IH]; [reflexivity|].
  simpl. rewrite clean_record_dict, IH. reflexivity.
Qed.

(** The orchestrator up to the end of the normalisation. *)
Lemma ingest_until_cleaned (save_raw : bool) (j : journal) :
  let raw_path := if save_raw then Some RAW_PATH else None in
  exists new,
    fetch_mixture_data env raw_path (events_of j)
    = (fst (fetch_mixture_data env raw_path (events_of j)), events_of j ++ new) /\
    Forall snapshot_event new /\
    let j1 := (j ++ [Stage MsgRule; Stage MsgTitle; Stage MsgRule]) ++ map Below new in
    events_of j1 = events_of j ++ new /\
    ingest_mixture_to_supabase env save_raw j
    = match fst (fetch_mixture_data env raw_path (events_of j)) with
      | Raise e => (Raise e, j1)
      | Ok raw_items =>
          let j2 := j1 ++ [Stage MsgBlank; Stage MsgCleaning] in
          match clean_all raw_items with
          | Raise e => (Raise e, j2)
          | Ok cleaned_items =>
              let j3 := j2 ++ [ Stage (MsgCleaned (len cleaned_items)); Stage MsgBlank;
                                Stage MsgCheckingTable; Stage (MsgTableAssumed MIXTURES);
                                Stage MsgBlank; Stage MsgUploading ] in
              match run (upsert_to_supabase env cleaned_items MIXTURES 500) j3 with
              | (Raise e, j4) => (Raise e, j4)
              | (Ok _, j4) =>
                  (Ok tt, j4 ++ [ Stage MsgBlank; Stage MsgRule; Stage MsgFinished;
                                  Stage MsgRule ])
              end
          end
      end.
Proof.
  intros raw_path.
  set (j0 := j ++ [Stage MsgRule; Stage MsgTitle; Stage MsgRule]).
  assert (H0 : events_of j0 = events_of j).
  { unfold j0. rewrite events_of_app. apply app_nil_r. }
  destruct (run_adds snapshot_event (fetch_mixture_data env raw_path) j0
                     (fetch_mixture_data_adds env raw_path))
    as (new & Hc & Hrun & Hev & HP).
  rewrite H0 in Hc, Hrun, Hev.
  exists new. split; [exact Hc|]. split; [exact HP|]. cbv zeta.
  split; [exact Hev|].
  unfold ingest_mixture_to_supabase. fold raw_path.
  unfold obind at 1. unfold say at 1.
  unfold obind at 1. unfold say at 1.
  unfold obind at 1. unfold say at 1.
  rewrite <- ?app_assoc. simpl app. fold j0.
  unfold obind at 1. rewrite Hrun.
  destruct (fst (fetch_mixture_data env raw_path (events_of j))) as [raw_items|e];
    [|reflexivity].
  unfold obind at 1. unfold say at 1.
  unfold obind at 1. unfold say at 1.
  unfold obind at 1. unfold olift at 1.
  rewrite <- ?app_assoc. simpl app.
  destruct (clean_all raw_items) as [cleaned_items|e];
    [|rewrite <- ?app_assoc; reflexivity].
  unfold ensure_table_exists.
  do 6 (unfold obind at 1; unfold say at 1).
  unfold obind at 1. unfold j0. rewrite <- ?app_assoc. simpl app.
  destruct (run (upsert_to_supabase env cleaned_items MIXTURES 500) _)
    as [[u|e] j4]; [|reflexivity].
  do 3 (unfold obind at 1; unfold say at 1). unfold say.
  rewrite <- ?app_assoc. simpl app. destruct u. reflexivity.
Qed.

End Pipeline_order.



(** X16. End to end.  When the collection returns records (objects), the
    store client can be created and the store accepts every batch,
    ingest_mixture_to_supabase succeeds; what it upserts into "mixtures"
    is the normalised records, one per collected record and in the same
    order, cut into batches of 500; every row has exactly the 19 columns;
    and no request is sent once the collection is over. *)
Theorem ingest_writes_normalised_rows
        (I : interpreter) (env : environment) (save_raw : bool) (j : journal)
        (ds : list dict) (tr1 : trace) :
  fetch_mixture_data env (if save_raw then Some RAW_PATH else None) (events_of j)
  = (Ok (map VDict ds), tr1) ->
  supabase_client env tr1 = Ok tt ->
  (forall tr t b, store_upsert env tr t b = Ok tt) ->
  len ds < 2 ^ 53 ->
  exists j',
    ingest_mixture_to_supabase env save_raw j = (Ok tt, j') /\
    upserts_of (events_of j')
    = upserts_of (events_of j) ++
      map (fun b => (MIXTURES, b)) (batches_of (map normalised ds) 500) /\
    concat (batches_of (map normalised ds) 500) = map normalised ds /\
    List.length (map normalised ds) = List.length ds /\
    Forall (fun row => dict_keys row = MIXTURE_COLUMNS) (map normalised ds) /\
    requests_of (events_of j') = requests_of tr1.
Proof.
  intros Hfetch Hclient Hstore Hlen.
  destruct (ingest_until_cleaned env save_raw j) as (new & Hc & HP & Hev & Hrun).
  cbv zeta in Hev, Hrun. rewrite Hrun.
  rewrite Hfetch in Hc. simpl in Hc. injection Hc as Htr1.
  rewrite Hfetch. simpl fst. cbv beta iota.
  rewrite clean_all_dicts.
  set (rows := map normalised ds).
  set (j3 := (_ ++ [Stage MsgBlank; Stage MsgCleaning]) ++ _).
  assert (Hev3 : events_of j3 = tr1).
  { unfold j3. rewrite events_of_app. rewrite events_of_app. rewrite Hev.
    simpl. rewrite !app_nil_r. symmetry. exact Htr1. }
  destruct (run_adds writer_event (upsert_to_supabase env rows MIXTURES 500) j3
                     (upsert_to_supabase_adds env rows MIXTURES 500))
    as (new2 & Hc2 & Hrun2 & Hev2 & HP2).
  rewrite Hev3 in Hc2, Hrun2, Hev2.
  destruct (upsert_to_supabase_accepted env rows MIXTURES 500 tr1 Hclient Hstore)
    as (tr' & Hup & Hups).
  { assert (H9 : 2 ^ 9 < 2 ^ 1022) by (apply Z.pow_lt_mono_r; lia).
    change (2 ^ 9) with 512 in H9. lia. }
  { unfold rows, len in *. rewrite length_map. exact Hlen. }
  rewrite Hup in Hc2, Hrun2. simpl in Hc2, Hrun2. injection Hc2 as Htr'.
  rewrite Hrun2. eexists. split; [reflexivity|].
  rewrite events_of_app, Hev2. simpl. rewrite app_nil_r, <- Htr'.
  destruct (snapshot_events_quiet new HP) as (Hu & _).
  destruct (writer_events_quiet new2 HP2) as (Hr & _).
  split.
  { rewrite Hups, Htr1, upserts_of_app, Hu, app_nil_r. reflexivity. }
  split; [apply concat_batches_of; lia|].
  split; [apply length_map|]. split.
  { apply Forall_forall. intros row Hin. apply in_map_iff in Hin as (d & <- & _).
    unfold normalised, dict_keys. rewrite map_map. exact (map_id MIXTURE_COLUMNS). }
  rewrite Htr', requests_of_app, Hr. apply app_nil_r.
Qed.

Lemma ingest_writes_normalised_rows_witness :
  exists j',
    ingest_mixture_to_supabase (I := ascii_interpreter) records_env false []
    = (Ok tt, j') /\
    upserts_of (events_of j')
    = upserts_of (events_of []) ++
      map (fun b => (MIXTURES, b))
          (batches_of (map (normalised (I := ascii_interpreter))
                           [ [ (str "mix", VStr (str "A")) ];
                             [ (str "MIX", VStr (str "B")) ] ]) 500) /\
    concat (batches_of (map (normalised (I := ascii_interpreter))
                            [ [ (str "mix", VStr (str "A")) ];
                              [ (str "MIX", VStr (str "B")) ] ]) 500)
    = map (normalised (I := ascii_interpreter))
          [ [ (str "mix", VStr (str "A")) ]; [ (str "MIX", VStr (str "B")) ] ] /\
    List.length (map (normalised (I := ascii_interpreter))
                     [ [ (str "mix", VStr (str "A")) ];
                       [ (str "MIX", VStr (str "B")) ] ])
    = List.length [ [ (str "mix", VStr (str "A")) ]; [ (str "MIX", VStr (str "B")) ] ] /\
    Forall (fun row => dict_keys row = MIXTURE_COLUMNS)
           (map (normalised (I := ascii_interpreter))
                [ [ (str "mix", VStr (str "A")) ]; [ (str "MIX", VStr (str "B")) ] ]) /\
    requests_of (events_of j')
    = requests_of (snd (fetch_mixture_data records_env None [])).
Proof.
  apply (ingest_writes_normalised_rows ascii_interpreter records_env false []
           [ [ (str "mix", VStr (str "A")) ]; [ (str "MIX", VStr (str "B")) ] ]
           (snd (fetch_mixture_data records_env None []))).
  - vm_compute. reflexivity.
  - reflexivity.
  - intros tr t b. reflexivity.
  - reflexivity.
Defined.
